(** * ARQ-Software: the booking engine and the wire framing of the services

    A shallow embedding of the parts of the reservation services that the
    design document talks about:

    - [parse_message] / [format_response], the [NNNNNSSSSSDATOS] framing that
      every service under [src/services/] carries verbatim;
    - [handle_create_booking], [handle_approve_booking] and
      [handle_cancel_booking] of [booking_service.py];
    - [handle_apply_block] and [handle_resolve_incident] of
      [incident_service.py];
    - [handle_get_calendar] of [availability_service.py].

    Conventions of the embedding.

    - A Python [str] is a list of Unicode code points ([pystr]); [len] is the
      number of code points, the UTF-8 encoder gives the bytes put on the
      socket.
    - A [datetime] is an integer number of microseconds; only the order of
      instants and the addition of whole hours are used by the code.
    - The relational store is a record of tables, each table a list of rows in
      insertion order; every SQL statement of a handler is a list operation on
      the table it touches, and a handler maps a store to a new store and a
      response.
    - The handlers are embedded from the point where the fields have been read
      from the request dictionary: an identifier is an integer and [0] stands
      for an absent or empty field (Python falsy), a date field is absent,
      unparsable or an instant.
    - Database and socket failures (the [except Exception] arms) are outside
      the model. *)

From Stdlib Require Import ZArith NArith List Bool Lia String Ascii.
From Stdlib.Strings Require Import Byte.
From Stdlib Require Import DecimalString Decimal DecimalFacts DecimalPos DecimalN
  DecimalZ DecimalNat.
Import ListNotations.


Local Open Scope N_scope.

(** ** Python strings *)

Module PyStr.

(** One element per code point, as [len] and slicing count them. *)
Definition codepoint := N.
Definition pystr := list codepoint.

Definition eqb (a b : pystr) : bool :=
  if list_eq_dec N.eq_dec a b then true else false.

(** *** UTF-8 *)

Definition byte_of_N (n : N) : byte :=
  match Byte.of_N (n mod 256) with Some b => b | None => x00 end.

(** [str.encode('utf-8')] of one code point; a lone surrogate or a value
    above U+10FFFF has no encoding (Python raises UnicodeEncodeError). *)
Definition encode_codepoint (c : codepoint) : option (list byte) :=
  if c <? 128 then Some [byte_of_N c]
  else if c <? 2048 then
    Some [byte_of_N (192 + c / 64); byte_of_N (128 + c mod 64)]
  else if c <? 65536 then
    if (55296 <=? c) && (c <=? 57343) then None
    else Some [byte_of_N (224 + c / 4096);
               byte_of_N (128 + (c / 64) mod 64);
               byte_of_N (128 + c mod 64)]
  else if c <? 1114112 then
    Some [byte_of_N (240 + c / 262144);
          byte_of_N (128 + (c / 4096) mod 64);
          byte_of_N (128 + (c / 64) mod 64);
          byte_of_N (128 + c mod 64)]
  else None.

Fixpoint encode_utf8 (s : pystr) : option (list byte) :=
  match s with
  | [] => Some []
  | c :: s' =>
      match encode_codepoint c, encode_utf8 s' with
      | Some bs, Some rest => Some (bs ++ rest)
      | _, _ => None
      end
  end.

(** Decoder used to write the string literals of the sources, which are
    UTF-8 text, as code points. *)
Definition cont (b : byte) : N := Byte.to_N b mod 64.

Fixpoint decode_utf8 (bs : list byte) : pystr :=
  match bs with
  | [] => []
  | b :: r =>
      let n := Byte.to_N b in
      if n <? 192 then n :: decode_utf8 r
      else if n <? 224 then
        match r with
        | b1 :: r1 => ((n - 192) * 64 + cont b1) :: decode_utf8 r1
        | _ => [n]
        end
      else if n <? 240 then
        match r with
        | b1 :: b2 :: r2 =>
            ((n - 224) * 4096 + cont b1 * 64 + cont b2) :: decode_utf8 r2
        | _ => [n]
        end
      else
        match r with
        | b1 :: b2 :: b3 :: r3 =>
            ((n - 240) * 262144 + cont b1 * 4096 + cont b2 * 64 + cont b3)
              :: decode_utf8 r3
        | _ => [n]
        end
  end.

Definition py (s : string) : pystr := decode_utf8 (list_byte_of_string s).

(** *** The [str] methods the framing uses *)

Definition len (s : pystr) : nat := List.length s.

(** [s.ljust(w)]: pad on the right with spaces up to width [w]. *)
Definition ljust (w : nat) (s : pystr) : pystr :=
  s ++ repeat 32 (w - len s).

(** [s[:n]], [s[n:]] and [s[a:b]] for non-negative bounds. *)
Definition upto (n : nat) (s : pystr) : pystr := firstn n s.
Definition from (n : nat) (s : pystr) : pystr := skipn n s.
Definition slice (a b : nat) (s : pystr) : pystr := firstn (b - a) (skipn a s).

(** [str.isspace] on one code point (the table of
    [_PyUnicode_IsWhitespace]). *)
Definition isspace (c : codepoint) : bool :=
  ((9 <=? c) && (c <=? 13)) || ((28 <=? c) && (c <=? 32))
  || (c =? 133) || (c =? 160) || (c =? 5760)
  || ((8192 <=? c) && (c <=? 8202))
  || (c =? 8232) || (c =? 8233) || (c =? 8239) || (c =? 8287)
  || (c =? 12288).

Fixpoint lstrip (s : pystr) : pystr :=
  match s with
  | c :: s' => if isspace c then lstrip s' else s
  | [] => []
  end.

Definition rstrip (s : pystr) : pystr := List.rev (lstrip (List.rev s)).

(** [s.strip()] *)
Definition strip (s : pystr) : pystr := rstrip (lstrip s).

(** *** Decimal numerals *)

Fixpoint digits (u : Decimal.uint) : pystr :=
  match u with
  | Nil => []
  | D0 u => 48 :: digits u
  | D1 u => 49 :: digits u
  | D2 u => 50 :: digits u
  | D3 u => 51 :: digits u
  | D4 u => 52 :: digits u
  | D5 u => 53 :: digits u
  | D6 u => 54 :: digits u
  | D7 u => 55 :: digits u
  | D8 u => 56 :: digits u
  | D9 u => 57 :: digits u
  end.

(** [str(n)] for a length. *)
Definition str_of_nat (n : nat) : pystr := digits (Nat.to_uint n).

(** [str(z)] for an [int]. *)
Definition str_of_Z (z : Z) : pystr :=
  match Z.to_int z with
  | Pos u => digits u
  | Neg u => 45 :: digits u
  end.

(** [s.zfill(w)]: zeros on the left up to width [w], after a leading
    sign. *)
Definition zfill (w : nat) (s : pystr) : pystr :=
  let zeros := repeat 48 (w - len s) in
  match s with
  | c :: s' => if (c =? 43) || (c =? 45) then c :: zeros ++ s' else zeros ++ s
  | [] => zeros
  end.

End PyStr.

Import PyStr.

(** ** The [json] module on the values the services exchange

    [json.dumps(data, ensure_ascii=False)] and [json.loads] of the Python
    standard library, on the values made of [None], booleans, integers,
    strings, lists and dictionaries with string keys.  Floats are outside the
    fragment: the decoder below rejects a number with a fraction or an
    exponent and the constants [NaN] and [Infinity]. *)

Module Json.

#[local] Unset Elimination Schemes.
Inductive json : Type :=
| JNull
| JBool (b : bool)
| JInt (z : Z)
| JStr (s : pystr)
| JList (items : list json)
| JDict (pairs : list (pystr * json)).
#[local] Set Elimination Schemes.

(** Induction on values, with the hypothesis on every item of a list and
    on every value of a dictionary. *)
Section JsonInduction.
Variable P : json -> Prop.
Hypothesis Hnull : P JNull.
Hypothesis Hbool : forall b, P (JBool b).
Hypothesis Hint : forall z, P (JInt z).
Hypothesis Hstr : forall s, P (JStr s).
Hypothesis Hlist : forall items, Forall P items -> P (JList items).
Hypothesis Hdict :
  forall pairs, Forall (fun kv => P (snd kv)) pairs -> P (JDict pairs).

Fixpoint json_induction (v : json) : P v :=
  match v with
  | JNull => Hnull
  | JBool b => Hbool b
  | JInt z => Hint z
  | JStr s => Hstr s
  | JList items =>
      Hlist items
        ((fix all (l : list json) : Forall P l :=
            match l with
            | [] => Forall_nil P
            | x :: r => Forall_cons x (json_induction x) (all r)
            end) items)
  | JDict pairs =>
      Hdict pairs
        ((fix all (l : list (pystr * json))
            : Forall (fun kv => P (snd kv)) l :=
            match l with
            | [] => Forall_nil _
            | kv :: r => Forall_cons kv (json_induction (snd kv)) (all r)
            end) pairs)
  end.
End JsonInduction.

(** *** Encoder *)

Definition hexdigit (d : N) : codepoint :=
  if d <? 10 then 48 + d else 87 + d.

(** ['\\u{0:04x}'.format(c)] *)
Definition escape_u (c : codepoint) : pystr :=
  [92; 117; hexdigit ((c / 4096) mod 16); hexdigit ((c / 256) mod 16);
   hexdigit ((c / 16) mod 16); hexdigit (c mod 16)].

(** The replacement of [ESCAPE_DCT] for one character ([ensure_ascii] is
    off: only the quote, the backslash and the control characters are
    escaped). *)
Definition escape_char (c : codepoint) : pystr :=
  if c =? 34 then [92; 34]
  else if c =? 92 then [92; 92]
  else if c =? 10 then [92; 110]
  else if c =? 13 then [92; 114]
  else if c =? 9 then [92; 116]
  else if c =? 8 then [92; 98]
  else if c =? 12 then [92; 102]
  else if c <? 32 then escape_u c
  else [c].

Definition encode_basestring (s : pystr) : pystr :=
  34 :: flat_map escape_char s ++ [34].

Fixpoint join (sep : pystr) (parts : list pystr) : pystr :=
  match parts with
  | [] => []
  | [p] => p
  | p :: rest => p ++ sep ++ join sep rest
  end.

Definition item_separator : pystr := [44; 32].
Definition key_separator : pystr := [58; 32].

Fixpoint dumps (v : json) : pystr :=
  match v with
  | JNull => [110; 117; 108; 108]
  | JBool true => [116; 114; 117; 101]
  | JBool false => [102; 97; 108; 115; 101]
  | JInt z => str_of_Z z
  | JStr s => encode_basestring s
  | JList items => 91 :: join item_separator (map dumps items) ++ [93]
  | JDict pairs =>
      123 :: join item_separator
               (map (fun kv => encode_basestring (fst kv) ++ key_separator
                                 ++ dumps (snd kv)) pairs)
          ++ [125]
  end.

(** *** Decoder *)

Definition is_ws (c : codepoint) : bool :=
  (c =? 32) || (c =? 9) || (c =? 10) || (c =? 13).

Fixpoint skip_ws (s : pystr) : pystr :=
  match s with
  | c :: s' => if is_ws c then skip_ws s' else s
  | [] => []
  end.

Definition hexval (c : codepoint) : option N :=
  if (48 <=? c) && (c <=? 57) then Some (c - 48)
  else if (97 <=? c) && (c <=? 102) then Some (c - 87)
  else if (65 <=? c) && (c <=? 70) then Some (c - 55)
  else None.

(** [_decode_uXXXX]: exactly four hexadecimal digits. *)
Definition decode_uXXXX (h1 h2 h3 h4 : codepoint) : option N :=
  match hexval h1, hexval h2, hexval h3, hexval h4 with
  | Some a, Some b, Some c, Some d => Some (((a * 16 + b) * 16 + c) * 16 + d)
  | _, _, _, _ => None
  end.

(** The table [BACKSLASH] of the one-letter escapes. *)
Definition backslash (e : codepoint) : option codepoint :=
  if e =? 34 then Some 34
  else if e =? 92 then Some 92
  else if e =? 47 then Some 47
  else if e =? 98 then Some 8
  else if e =? 102 then Some 12
  else if e =? 110 then Some 10
  else if e =? 114 then Some 13
  else if e =? 116 then Some 9
  else None.

Definition push (c : codepoint) (r : option (pystr * pystr))
  : option (pystr * pystr) :=
  match r with
  | Some (s, rest) => Some (c :: s, rest)
  | None => None
  end.

(** [scanstring] in strict mode, started after the opening quote: the
    decoded string and the text after the closing quote. *)
Fixpoint scanstring (s : pystr) : option (pystr * pystr) :=
  match s with
  | [] => None
  | c :: r =>
      if c =? 34 then Some ([], r)
      else if c =? 92 then
        match r with
        | [] => None
        | e :: r1 =>
            if e =? 117 then
              match r1 with
              | h1 :: h2 :: h3 :: h4 :: r2 =>
                  match decode_uXXXX h1 h2 h3 h4 with
                  | None => None
                  | Some uni =>
                      if (55296 <=? uni) && (uni <=? 56319) then
                        match r2 with
                        | b :: u :: g1 :: g2 :: g3 :: g4 :: r3 =>
                            if (b =? 92) && (u =? 117) then
                              match decode_uXXXX g1 g2 g3 g4 with
                              | None => None
                              | Some uni2 =>
                                  if (56320 <=? uni2) && (uni2 <=? 57343)
                                  then push (65536 + ((uni - 55296) * 1024
                                                      + (uni2 - 56320)))
                                         (scanstring r3)
                                  else push uni (scanstring r2)
                              end
                            else push uni (scanstring r2)
                        | b :: u :: _ =>
                            if (b =? 92) && (u =? 117) then None
                            else push uni (scanstring r2)
                        | _ => push uni (scanstring r2)
                        end
                      else push uni (scanstring r2)
                  end
              | _ => None
              end
            else
              match backslash e with
              | Some ch => push ch (scanstring r1)
              | None => None
              end
        end
      else if c <? 32 then None
      else push c (scanstring r)
  end.

Definition is_digit (c : codepoint) : bool := (48 <=? c) && (c <=? 57).

Definition snoc_digit (c : codepoint) (u : Decimal.uint) : Decimal.uint :=
  match c with
  | 48 => D0 u | 49 => D1 u | 50 => D2 u | 51 => D3 u | 52 => D4 u
  | 53 => D5 u | 54 => D6 u | 55 => D7 u | 56 => D8 u | _ => D9 u
  end.

(** The longest run of digits at the head of the text. *)
Fixpoint read_digits (s : pystr) : Decimal.uint * pystr :=
  match s with
  | c :: r =>
      if is_digit c
      then let (u, rest) := read_digits r in (snoc_digit c u, rest)
      else (Nil, s)
  | [] => (Nil, [])
  end.

(** Does a fraction (a dot and a digit) or an exponent ([e] or [E], an
    optional sign and a digit) follow? *)
Definition float_follows (s : pystr) : bool :=
  match s with
  | c :: d :: r =>
      if c =? 46 then is_digit d
      else if (c =? 101) || (c =? 69) then
        if (d =? 43) || (d =? 45)
        then match r with d' :: _ => is_digit d' | [] => false end
        else is_digit d
      else false
  | _ => false
  end.

(** [NUMBER_RE]: an optional minus sign, then [0] or a digit other than
    [0] followed by digits; and what the scanner does with an integer
    match. *)
Definition scan_number (s : pystr) : option (json * pystr) :=
  let (neg, body) :=
    match s with
    | c :: r => if c =? 45 then (true, r) else (false, s)
    | [] => (false, s)
    end in
  match body with
  | d :: r =>
      if is_digit d then
        let (u, rest) := if d =? 48 then (D0 Nil, r) else read_digits body in
        if float_follows rest then None
        else Some (JInt (Z.of_int (if neg then Neg u else Pos u)), rest)
      else None
  | [] => None
  end.

Fixpoint starts_with (p s : pystr) : option pystr :=
  match p, s with
  | [], _ => Some s
  | a :: p', b :: s' => if a =? b then starts_with p' s' else None
  | _ :: _, [] => None
  end.

(** [dict(pairs)]: a repeated key keeps its first position and takes the
    last value. *)
Fixpoint dict_set (k : pystr) (v : json) (d : list (pystr * json))
  : list (pystr * json) :=
  match d with
  | [] => [(k, v)]
  | (k', v') :: r =>
      if PyStr.eqb k k' then (k', v) :: r else (k', v') :: dict_set k v r
  end.

Definition dict_of_pairs (ps : list (pystr * json)) : list (pystr * json) :=
  fold_left (fun d kv => dict_set (fst kv) (snd kv) d) ps [].

(** [scan_once], [JSONArray] and [JSONObject].  The recursion of the
    scanner is on the text; here a counter bounds the nesting and the
    number of elements, and [loads] starts it above the length of the
    text. *)
Fixpoint scan_once (fuel : nat) (s : pystr) : option (json * pystr) :=
  match fuel with
  | O => None
  | S f =>
      match s with
      | [] => None
      | c :: r =>
          if c =? 34 then
            match scanstring r with
            | Some (str, rest) => Some (JStr str, rest)
            | None => None
            end
          else if c =? 123 then
            match skip_ws r with
            | c1 :: r1 =>
                if c1 =? 125 then Some (JDict [], r1)
                else if c1 =? 34 then
                  match object_loop f r1 with
                  | Some (ps, rest) => Some (JDict (dict_of_pairs ps), rest)
                  | None => None
                  end
                else None
            | [] => None
            end
          else if c =? 91 then
            match skip_ws r with
            | c1 :: r1 =>
                if c1 =? 93 then Some (JList [], r1)
                else
                  match array_loop f (c1 :: r1) with
                  | Some (vs, rest) => Some (JList vs, rest)
                  | None => None
                  end
            | [] => None
            end
          else if c =? 110 then
            match starts_with [110; 117; 108; 108] s with
            | Some rest => Some (JNull, rest)
            | None => None
            end
          else if c =? 116 then
            match starts_with [116; 114; 117; 101] s with
            | Some rest => Some (JBool true, rest)
            | None => None
            end
          else if c =? 102 then
            match starts_with [102; 97; 108; 115; 101] s with
            | Some rest => Some (JBool false, rest)
            | None => None
            end
          else scan_number s
      end
  end

with array_loop (fuel : nat) (s : pystr) : option (list json * pystr) :=
  match fuel with
  | O => None
  | S f =>
      match scan_once f s with
      | None => None
      | Some (v, r) =>
          match skip_ws r with
          | c :: r1 =>
              if c =? 93 then Some ([v], r1)
              else if c =? 44 then
                match array_loop f (skip_ws r1) with
                | Some (vs, rest) => Some (v :: vs, rest)
                | None => None
                end
              else None
          | [] => None
          end
      end
  end

with object_loop (fuel : nat) (s : pystr)
  : option (list (pystr * json) * pystr) :=
  match fuel with
  | O => None
  | S f =>
      match scanstring s with
      | None => None
      | Some (key, r) =>
          match skip_ws r with
          | c :: r1 =>
              if c =? 58 then
                match scan_once f (skip_ws r1) with
                | None => None
                | Some (v, r2) =>
                    match skip_ws r2 with
                    | c2 :: r3 =>
                        if c2 =? 125 then Some ([(key, v)], r3)
                        else if c2 =? 44 then
                          match skip_ws r3 with
                          | q :: r4 =>
                              if q =? 34 then
                                match object_loop f r4 with
                                | Some (ps, rest) => Some ((key, v) :: ps, rest)
                                | None => None
                                end
                              else None
                          | [] => None
                          end
                        else None
                    | [] => None
                    end
                end
              else None
          | [] => None
          end
      end
  end.

(** [json.loads]: one value between optional white space, nothing after
    it; [None] is [JSONDecodeError]. *)
Definition loads (s : pystr) : option json :=
  match scan_once (S (len s)) (skip_ws s) with
  | Some (v, rest) =>
      match skip_ws rest with
      | [] => Some v
      | _ :: _ => None
      end
  | None => None
  end.

(** A value that a Python program can hold: the keys of a dictionary are
    distinct. *)
Fixpoint nodupb (ks : list pystr) : bool :=
  match ks with
  | [] => true
  | k :: r => negb (existsb (PyStr.eqb k) r) && nodupb r
  end.

Fixpoint wf (v : json) : bool :=
  match v with
  | JList items => forallb wf items
  | JDict pairs =>
      nodupb (map fst pairs) && forallb (fun kv => wf (snd kv)) pairs
  | _ => true
  end.

(** Number of constructors, the bound on what the decoder's counter
    needs. *)
Fixpoint size (v : json) : nat :=
  match v with
  | JList items => S (fold_right (fun x n => S (size x + n)) O items)
  | JDict pairs => S (fold_right (fun kv n => S (size (snd kv) + n)) O pairs)
  | _ => 1
  end.

(** The text of one entry of a dictionary. *)
Definition pair_text (kv : pystr * json) : pystr :=
  encode_basestring (fst kv) ++ key_separator ++ dumps (snd kv).

Definition sizes (items : list json) : nat :=
  fold_right (fun x n => S (size x + n)) O items.

Definition sizes_pairs (pairs : list (pystr * json)) : nat :=
  fold_right (fun kv n => S (size (snd kv) + n)) O pairs.

(** What may follow a value inside a document: nothing, a comma or a
    closing bracket. *)
Definition delim (rest : pystr) : Prop :=
  match rest with
  | [] => True
  | c :: _ => c = 44 \/ c = 93 \/ c = 125
  end.

(** A numeral that does not start with a zero. *)
Definition cabeza_no_nula (u : Decimal.uint) : Prop :=
  match u with
  | Nil | D0 _ => False
  | _ => True
  end.

(** A text that starts with neither white space nor a closing square
    bracket, as every encoded value does. *)
Definition cabeza_valor (s : pystr) : Prop :=
  match s with
  | [] => False
  | c :: _ => is_ws c = false /\ (c =? 93) = false
  end.

(** The decoder, given enough of its counter, reads the encoding of [v]
    back and stops right after it. *)
Definition scan_ok (v : json) : Prop :=
  forall fuel rest, (size v < fuel)%nat -> delim rest ->
    scan_once fuel (dumps v ++ rest) = Some (v, rest).

End Json.

Import Json.

(** ** Framing: [parse_message] and [format_response]

    The two methods are the same text in every service class. *)

Module Frame.

(** The two [ValueError]s that [parse_message] raises. *)
Inductive value_error : Type :=
| MensajeMuyCorto          (* "Mensaje muy corto" *)
| ErrorAlDecodificarJSON.  (* "Error al decodificar JSON" *)

Definition parse_message (message : pystr) : value_error + (pystr * json) :=
  if (len message <? 10)%nat then inl MensajeMuyCorto
  else
    let service_code := strip (slice 5 10 message) in
    let data_str := from 10 message in
    match data_str with
    | [] => inr (service_code, JDict [])
    | _ :: _ =>
        match loads data_str with
        | Some data => inr (service_code, data)
        | None => inl ErrorAlDecodificarJSON
        end
    end.

Definition format_response (service_code : pystr) (data : json) : pystr :=
  let json_data := dumps data in
  let service_code := upto 5 (ljust 5 service_code) in
  let message := service_code ++ json_data in
  let length_str := zfill 5 (str_of_nat (len message)) in
  length_str ++ message.

End Frame.

Import Frame.

Local Open Scope Z_scope.

(** ** The relational store *)

Module Store.

(** Instants, in microseconds. *)
Definition datetime := Z.
Definition hora : Z := 3600000000.

(** The values that the handlers write into [reservas.estado]. *)
Inductive estado_reserva : Type :=
| Pendiente | Aprobada | Rechazada | Cancelada | Bloqueo.

Definition estado_eqb (a b : estado_reserva) : bool :=
  match a, b with
  | Pendiente, Pendiente | Aprobada, Aprobada | Rechazada, Rechazada
  | Cancelada, Cancelada | Bloqueo, Bloqueo => true
  | _, _ => false
  end.

(** [reservas.tipo_reserva] *)
Inductive tipo : Type := TipoNormal | TipoBloqueo.

(** A row of [reservas]; [id_usuario] is NULL for a block. *)
Record reserva : Type := {
  id_reserva : Z;
  id_usuario : option Z;
  id_espacio : Z;
  fecha_inicio : datetime;
  fecha_fin : datetime;
  estado : estado_reserva;
  motivo : pystr;
  fecha_solicitud : datetime;
  tipo_reserva : tipo;
  descripcion_incidencia : option pystr
}.

Record usuario : Type := { u_id : Z; u_activo : bool }.

Record espacio : Type := { e_id : Z; e_nombre : pystr; e_activo : bool }.

Inductive estado_incidencia : Type := Abierta | Resuelta.

Record incidencia : Type := {
  i_id : Z;
  i_espacio : Z;
  i_estado : estado_incidencia;
  i_solucion : pystr;
  i_fecha_resolucion : option datetime
}.

(** The tables the handlers read and write.  Their declarations
    ([database/init_sqlite.sql]) are not among the sources: the columns are
    the ones that the statements of the handlers name, and
    [setup_database_sqlite.py] turns the key columns into
    [INTEGER PRIMARY KEY AUTOINCREMENT], so the identifier of a new row of
    [reservas] is one more than the largest one the table ever held, which
    [reservas_seq] keeps. *)
Record db : Type := {
  usuarios : list usuario;
  espacios : list espacio;
  incidencias : list incidencia;
  reservas : list reserva;
  reservas_seq : Z
}.

Definition con_reservas (d : db) (rs : list reserva) (seq : Z) : db :=
  {| usuarios := usuarios d; espacios := espacios d;
     incidencias := incidencias d; reservas := rs; reservas_seq := seq |}.

Definition con_incidencias (d : db) (tabla : list incidencia) : db :=
  {| usuarios := usuarios d; espacios := espacios d;
     incidencias := tabla; reservas := reservas d;
     reservas_seq := reservas_seq d |}.

Definition con_estado (e : estado_reserva) (r : reserva) : reserva :=
  {| id_reserva := id_reserva r; id_usuario := id_usuario r;
     id_espacio := id_espacio r; fecha_inicio := fecha_inicio r;
     fecha_fin := fecha_fin r; estado := e; motivo := motivo r;
     fecha_solicitud := fecha_solicitud r; tipo_reserva := tipo_reserva r;
     descripcion_incidencia := descripcion_incidencia r |}.

(** [UPDATE t SET ... WHERE p]: the new table and [rowcount]. *)
Definition sql_update {A} (p : A -> bool) (f : A -> A) (t : list A)
  : list A * nat :=
  (map (fun r => if p r then f r else r) t, List.length (filter p t)).

(** [DELETE FROM t WHERE p] *)
Definition sql_delete {A} (p : A -> bool) (t : list A) : list A :=
  filter (fun r => negb (p r)) t.

(** [SELECT COUNT( * ) FROM t WHERE p] *)
Definition sql_count {A} (p : A -> bool) (t : list A) : nat :=
  List.length (filter p t).

(** [fetchone()] of [SELECT ... FROM t WHERE p] *)
Definition sql_first {A} (p : A -> bool) (t : list A) : option A := find p t.

(** [id_usuario = :user_id], false on NULL. *)
Definition es_de (user_id : Z) (r : reserva) : bool :=
  match id_usuario r with
  | Some u => u =? user_id
  | None => false
  end.

(** [estado IN ('pendiente', 'aprobada')] *)
Definition pendiente_o_aprobada (r : reserva) : bool :=
  match estado r with
  | Pendiente | Aprobada => true
  | _ => false
  end.

(** The condition of the conflict query of [handle_create_booking], which
    is also the condition of the cancelling [UPDATE] of
    [handle_apply_block]:
    [id_espacio = :space_id AND estado IN ('pendiente', 'aprobada') AND
     (fecha_inicio < :fecha_fin AND fecha_fin > :fecha_inicio)]. *)
Definition en_conflicto (space_id : Z) (ini fin : datetime) (r : reserva)
  : bool :=
  (id_espacio r =? space_id) && pendiente_o_aprobada r
  && ((fecha_inicio r <? fin) && (fecha_fin r >? ini)).

(** A field of a request that carries a date: absent or empty, text that
    the parser ([fromisoformat], [strptime]) refuses, or an instant. *)
Inductive campo_fecha : Type :=
| FechaAusente
| FechaInvalida
| Fecha (t : datetime).

Definition fecha_truthy (c : campo_fecha) : bool :=
  match c with FechaAusente => false | _ => true end.

(** Python truth of an identifier field. *)
Definition truthy (id : Z) : bool := negb (id =? 0).

(** The [{"error": ...}] answers of the handlers. *)
Inductive error : Type :=
| RequeridosReserva        (* Usuario, espacio, inicio y fin son requeridos *)
| FinNoPosterior           (* La fecha de fin debe ser posterior a la de inicio *)
| FormatoFechaInvalido     (* Formato de fecha inválido: ... *)
| UsuarioNoEncontrado      (* Usuario no encontrado *)
| EspacioNoEncontrado      (* Espacio no encontrado *)
| EspacioNoDisponible      (* El espacio no está disponible en ese horario *)
| RequeridosDecision       (* ID de reserva, estado y admin son requeridos *)
| EstadoInvalido           (* Estado inválido. Estados válidos: [...] *)
| ReservaNoEncontrada      (* Reserva no encontrada *)
| IdReservaRequerido       (* ID de reserva es requerido *)
| ReservaNoEncontradaONoAutorizada (* Reserva no encontrada o no autorizada *)
| RequeridosBloqueo        (* ID de incidencia, inicio y fin son requeridos *)
| IncidenciaNoEncontrada   (* Incidencia no encontrada *)
| IdIncidenciaRequerido    (* ID de incidencia es requerido *)
| RequeridosCalendario     (* ID del espacio y fecha son requeridos *)
| ErrorInterno.            (* Error interno: ... *)

Inductive result (A : Type) : Type :=
| Ok (a : A)
| Err (e : error).
Arguments Ok {A} a.
Arguments Err {A} e.

(** The text of each answer, as the source spells it (the two that embed
    the text of an exception are cut at the colon). *)
Definition mensaje (e : error) : pystr :=
  match e with
  | RequeridosReserva => py "Usuario, espacio, inicio y fin son requeridos"
  | FinNoPosterior => py "La fecha de fin debe ser posterior a la de inicio"
  | FormatoFechaInvalido => py "Formato de fecha inválido: "
  | UsuarioNoEncontrado => py "Usuario no encontrado"
  | EspacioNoEncontrado => py "Espacio no encontrado"
  | EspacioNoDisponible => py "El espacio no está disponible en ese horario"
  | RequeridosDecision => py "ID de reserva, estado y admin son requeridos"
  | EstadoInvalido =>
      py "Estado inválido. Estados válidos: ['aprobada', 'rechazada']"
  | ReservaNoEncontrada => py "Reserva no encontrada"
  | IdReservaRequerido => py "ID de reserva es requerido"
  | ReservaNoEncontradaONoAutorizada =>
      py "Reserva no encontrada o no autorizada"
  | RequeridosBloqueo => py "ID de incidencia, inicio y fin son requeridos"
  | IncidenciaNoEncontrada => py "Incidencia no encontrada"
  | IdIncidenciaRequerido => py "ID de incidencia es requerido"
  | RequeridosCalendario => py "ID del espacio y fecha son requeridos"
  | ErrorInterno => py "Error interno: "
  end.

Definition error_json (e : error) : json :=
  JDict [(py "error", JStr (mensaje e))].

End Store.

Import Store.

(** ** [booking_service.py] *)

Module Booking.

(** The row of the [INSERT] of [handle_create_booking]. *)
Definition nueva_reserva (id user_id space_id : Z) (ini fin : datetime)
  (texto : pystr) (now : datetime) : reserva :=
  {| id_reserva := id; id_usuario := Some user_id; id_espacio := space_id;
     fecha_inicio := ini; fecha_fin := fin; estado := Pendiente;
     motivo := texto; fecha_solicitud := now; tipo_reserva := TipoNormal;
     descripcion_incidencia := None |}.

(** [ORDER BY fecha_solicitud DESC LIMIT 1]; among rows of equal
    [fecha_solicitud], which SQLite may give in any order, the earliest
    row is kept. *)
Fixpoint mas_reciente (best : option reserva) (rows : list reserva)
  : option reserva :=
  match rows with
  | [] => best
  | r :: rest =>
      match best with
      | None => mas_reciente (Some r) rest
      | Some b =>
          if fecha_solicitud b <? fecha_solicitud r
          then mas_reciente (Some r) rest
          else mas_reciente best rest
      end
  end.

(** The condition of the query that reads back the identifier. *)
Definition misma_reserva (user_id space_id : Z) (ini fin : datetime)
  (r : reserva) : bool :=
  es_de user_id r && (id_espacio r =? space_id)
  && (fecha_inicio r =? ini) && (fecha_fin r =? fin).

(** [handle_create_booking]; [now] is the value of [datetime.now()]. *)
Definition handle_create_booking (d : db) (now : datetime)
  (user_id space_id : Z) (inicio fin : campo_fecha) (texto : pystr)
  : db * result Z :=
  if negb (truthy user_id && truthy space_id
           && fecha_truthy inicio && fecha_truthy fin)
  then (d, Err RequeridosReserva)
  else
    match inicio, fin with
    | Fecha ini, Fecha fi =>
        if fi <=? ini then (d, Err FinNoPosterior)
        else
          match sql_first (fun u => (u_id u =? user_id) && u_activo u)
                  (usuarios d) with
          | None => (d, Err UsuarioNoEncontrado)
          | Some _ =>
              match sql_first (fun e => (e_id e =? space_id) && e_activo e)
                      (espacios d) with
              | None => (d, Err EspacioNoEncontrado)
              | Some _ =>
                  if (0 <? sql_count (en_conflicto space_id ini fi)
                             (reservas d))%nat
                  then (d, Err EspacioNoDisponible)
                  else
                    let id := reservas_seq d + 1 in
                    let d' :=
                      con_reservas d
                        (reservas d
                         ++ [nueva_reserva id user_id space_id ini fi
                               texto now])
                        id in
                    match mas_reciente None
                            (filter (misma_reserva user_id space_id ini fi)
                               (reservas d')) with
                    | Some r => (d', Ok (id_reserva r))
                    | None => (d', Err ErrorInterno)
                    end
              end
          end
    | _, _ => (d, Err FormatoFechaInvalido)
    end.

(** [{"id": booking_id, "estado": "pendiente"}] *)
Definition create_json (r : result Z) : json :=
  match r with
  | Ok id => JDict [(py "id", JInt id); (py "estado", JStr (py "pendiente"))]
  | Err e => error_json e
  end.

(** The text of a state in the [estado] column. *)
Definition texto_estado (e : estado_reserva) : pystr :=
  match e with
  | Pendiente => py "pendiente"
  | Aprobada => py "aprobada"
  | Rechazada => py "rechazada"
  | Cancelada => py "cancelada"
  | Bloqueo => py "bloqueo"
  end.

Definition valid_states : list estado_reserva := [Aprobada; Rechazada].

(** [handle_approve_booking]; the request gives [estado] as text. *)
Definition handle_approve_booking (d : db) (reserva_id : Z)
  (estado_txt : pystr) (admin_id : Z) : db * result unit :=
  if negb (truthy reserva_id && (0 <? len estado_txt)%nat && truthy admin_id)
  then (d, Err RequeridosDecision)
  else
    match find (fun e => PyStr.eqb estado_txt (texto_estado e))
            valid_states with
    | None => (d, Err EstadoInvalido)
    | Some nuevo =>
        match sql_first (fun r => id_reserva r =? reserva_id)
                (reservas d) with
        | None => (d, Err ReservaNoEncontrada)
        | Some _ =>
            (con_reservas d
               (fst (sql_update (fun r => id_reserva r =? reserva_id)
                       (con_estado nuevo) (reservas d)))
               (reservas_seq d),
             Ok tt)
        end
    end.

(** [handle_cancel_booking] *)
Definition handle_cancel_booking (d : db) (reserva_id user_id : Z)
  : db * result unit :=
  if negb (truthy reserva_id) then (d, Err IdReservaRequerido)
  else
    match sql_first (fun r => (id_reserva r =? reserva_id)
                              && es_de user_id r) (reservas d) with
    | None => (d, Err ReservaNoEncontradaONoAutorizada)
    | Some _ =>
        (con_reservas d
           (fst (sql_update (fun r => id_reserva r =? reserva_id)
                   (con_estado Cancelada) (reservas d)))
           (reservas_seq d),
         Ok tt)
    end.

End Booking.

(** ** [incident_service.py] *)

Module Incident.

(** The row of the [INSERT] of [handle_apply_block]. *)
Definition nuevo_bloqueo (id space_id : Z) (ini fin : datetime)
  (now : datetime) (incidencia_id : Z) : reserva :=
  {| id_reserva := id; id_usuario := None; id_espacio := space_id;
     fecha_inicio := ini; fecha_fin := fin; estado := Bloqueo;
     motivo := py "Bloqueo por incidencia"; fecha_solicitud := now;
     tipo_reserva := TipoBloqueo;
     descripcion_incidencia :=
       Some (py "Incidencia #" ++ str_of_Z incidencia_id) |}.

(** [handle_apply_block]: the answer carries [reservas_canceladas]. *)
Definition handle_apply_block (d : db) (now : datetime) (incidencia_id : Z)
  (inicio fin : campo_fecha) : db * result nat :=
  if negb (truthy incidencia_id && fecha_truthy inicio && fecha_truthy fin)
  then (d, Err RequeridosBloqueo)
  else
    match inicio, fin with
    | Fecha ini, Fecha fi =>
        if fi <=? ini then (d, Err FinNoPosterior)
        else
          match sql_first (fun i => i_id i =? incidencia_id)
                  (incidencias d) with
          | None => (d, Err IncidenciaNoEncontrada)
          | Some incident_row =>
              let space_id := i_espacio incident_row in
              let (tabla, reservas_canceladas) :=
                sql_update (en_conflicto space_id ini fi)
                  (con_estado Cancelada) (reservas d) in
              let id := reservas_seq d + 1 in
              (con_reservas d
                 (tabla ++ [nuevo_bloqueo id space_id ini fi now
                              incidencia_id])
                 id,
               Ok reservas_canceladas)
          end
    | _, _ => (d, Err FormatoFechaInvalido)
    end.

(** The condition of the [DELETE] of [handle_resolve_incident]:
    [id_espacio = :space_id AND tipo_reserva = 'bloqueo' AND
     estado = 'bloqueo']. *)
Definition es_bloqueo_de (space_id : Z) (r : reserva) : bool :=
  (id_espacio r =? space_id)
  && match tipo_reserva r with TipoBloqueo => true | TipoNormal => false end
  && estado_eqb (estado r) Bloqueo.

Definition resolver (solucion : pystr) (now : datetime) (i : incidencia)
  : incidencia :=
  {| i_id := i_id i; i_espacio := i_espacio i; i_estado := Resuelta;
     i_solucion := solucion; i_fecha_resolucion := Some now |}.

(** [handle_resolve_incident]: the answer is
    [{"resuelta": True, "espacio_liberado": True}], of which the value of
    [espacio_liberado] is returned. *)
Definition handle_resolve_incident (d : db) (now : datetime)
  (incidencia_id : Z) (solucion : pystr) : db * result bool :=
  if negb (truthy incidencia_id) then (d, Err IdIncidenciaRequerido)
  else
    match sql_first (fun i => i_id i =? incidencia_id) (incidencias d) with
    | None => (d, Err IncidenciaNoEncontrada)
    | Some incident_row =>
        let space_id := i_espacio incident_row in
        let d1 :=
          con_incidencias d
            (fst (sql_update (fun i => i_id i =? incidencia_id)
                    (resolver solucion now) (incidencias d))) in
        (con_reservas d1 (sql_delete (es_bloqueo_de space_id) (reservas d1))
           (reservas_seq d1),
         Ok true)
    end.

(** [{"resuelta": True, "espacio_liberado": ...}] *)
Definition resolve_json (r : result bool) : json :=
  match r with
  | Ok liberado =>
      JDict [(py "resuelta", JBool true);
             (py "espacio_liberado", JBool liberado)]
  | Err e => error_json e
  end.

End Incident.

(** ** [availability_service.py] *)

Module Availability.

Definition dia : Z := 24 * hora.

(** [t.replace(hour=h, minute=0, second=0, microsecond=0)] *)
Definition replace_hour (h : Z) (t : datetime) : datetime :=
  t - t mod dia + h * hora.

(** One entry of [horarios]; [hora_inicio] is the instant that the entry
    prints as ["%H:%M"]. *)
Record horario : Type := {
  hora_inicio : datetime;
  disponible : bool;
  h_reserva_id : option Z;
  h_estado : option estado_reserva;
  h_motivo : option pystr
}.

Record calendario : Type := {
  c_espacio : pystr;
  c_fecha : datetime;
  c_horarios : list horario
}.

(** [ORDER BY fecha_inicio], rows of equal [fecha_inicio] in table
    order. *)
Fixpoint insertar (r : reserva) (l : list reserva) : list reserva :=
  match l with
  | [] => [r]
  | x :: l' =>
      if fecha_inicio r <=? fecha_inicio x then r :: l
      else x :: insertar r l'
  end.

Definition order_by_fecha_inicio (l : list reserva) : list reserva :=
  fold_right insertar [] l.

(** The condition of the query "reservas del día". *)
Definition del_dia (space_id : Z) (start_of_day end_of_day : datetime)
  (r : reserva) : bool :=
  (id_espacio r =? space_id) && (fecha_inicio r >=? start_of_day)
  && (fecha_fin r <=? end_of_day).

(** A result object is a cursor: [fetchall()] hands out the rows that are
    left and leaves none. *)
Definition cursor := list reserva.

Definition fetchall (c : cursor) : list reserva * cursor := (c, []).

(** The test of the inner loop: [res_start <= current_time < res_end]. *)
Definition cubre (current_time : datetime) (r : reserva) : bool :=
  (fecha_inicio r <=? current_time) && (current_time <? fecha_fin r).

Definition entrada (current_time : datetime) (info : option reserva)
  : horario :=
  {| hora_inicio := current_time;
     disponible := match info with None => true | Some _ => false end;
     h_reserva_id := None;
     h_estado := match info with Some r => Some (estado r) | None => None end;
     h_motivo := match info with Some r => Some (motivo r) | None => None end
  |}.

(** The loop [while current_time < end_of_day]; [vueltas] bounds the number
    of turns. *)
Fixpoint horarios_loop (vueltas : nat) (reservations_result : cursor)
  (current_time end_of_day : datetime) : list horario :=
  match vueltas with
  | O => []
  | S n =>
      if current_time <? end_of_day then
        let next_hour := current_time + hora in
        let (rows, reservations_result') := fetchall reservations_result in
        let reserva_info := find (cubre current_time) rows in
        entrada current_time reserva_info
          :: horarios_loop n reservations_result' next_hour end_of_day
      else []
  end.

(** [handle_get_calendar]; the date field is the instant that
    [strptime(fecha, "%Y-%m-%d")] gives. *)
Definition handle_get_calendar (d : db) (space_id : Z) (fecha : campo_fecha)
  : result calendario :=
  if negb (truthy space_id && fecha_truthy fecha)
  then Err RequeridosCalendario
  else
    match fecha with
    | Fecha target_date =>
        let start_of_day := replace_hour 8 target_date in
        let end_of_day := replace_hour 22 target_date in
        match sql_first (fun e => (e_id e =? space_id) && e_activo e)
                (espacios d) with
        | None => Err EspacioNoEncontrado
        | Some space =>
            let reservations_result :=
              order_by_fecha_inicio
                (filter (del_dia space_id start_of_day end_of_day)
                   (reservas d)) in
            Ok {| c_espacio := e_nombre space;
                  c_fecha := target_date;
                  c_horarios :=
                    horarios_loop
                      (S (Z.to_nat ((end_of_day - start_of_day) / hora)))
                      reservations_result start_of_day end_of_day |}
        end
    | _ => Err FormatoFechaInvalido
    end.

End Availability.

Import Booking Incident Availability.

(** ** Sequences of requests against one store *)

Module Engine.

Inductive operacion : Type :=
| OpCreate (now : datetime) (user_id space_id : Z)
    (inicio fin : campo_fecha) (texto : pystr)
| OpDecide (reserva_id : Z) (estado_txt : pystr) (admin_id : Z)
| OpCancel (reserva_id user_id : Z)
| OpApplyBlock (now : datetime) (incidencia_id : Z)
    (inicio fin : campo_fecha)
| OpResolve (now : datetime) (incidencia_id : Z) (solucion : pystr).

(** The store after a request has been served. *)
Definition ejecutar (d : db) (op : operacion) : db :=
  match op with
  | OpCreate now u s i f m => fst (handle_create_booking d now u s i f m)
  | OpDecide r e a => fst (handle_approve_booking d r e a)
  | OpCancel r u => fst (handle_cancel_booking d r u)
  | OpApplyBlock now i ini fin => fst (handle_apply_block d now i ini fin)
  | OpResolve now i s => fst (handle_resolve_incident d now i s)
  end.

(** The stores that a sequence of requests leads to, each request being
    admitted by [guard] in the store it meets. *)
Inductive alcanzable (guard : db -> operacion -> Prop) (d0 : db)
  : db -> Prop :=
| alc_inicio : alcanzable guard d0 d0
| alc_paso d op :
    alcanzable guard d0 d -> guard d op ->
    alcanzable guard d0 (ejecutar d op).

Definition sin_guardia (d : db) (op : operacion) : Prop := True.






(** A decision that targets only rows that are pending or approved. *)
Definition decide_sobre_vigente (d : db) (op : operacion) : Prop :=
  match op with
  | OpDecide reserva_id _ _ =>
      forall r, In r (reservas d) -> id_reserva r = reserva_id ->
                pendiente_o_aprobada r = true
  | _ => True
  end.

(** Some pending or approved row of the space overlaps [[ini, fin)]. *)
Definition ocupado (d : db) (space_id : Z) (ini fin : datetime) : Prop :=
  exists r, In r (reservas d) /\ id_espacio r = space_id
            /\ pendiente_o_aprobada r = true
            /\ fecha_inicio r < fin /\ ini < fecha_fin r.

(** The table after [UPDATE reservas SET estado = e WHERE id_reserva = id]. *)
Definition poner_estado (reserva_id : Z) (e : estado_reserva)
  (t : list reserva) : list reserva :=
  map (fun r => if id_reserva r =? reserva_id then con_estado e r else r) t.


(** The key of [reservas]: identifiers are distinct, positive and not
    above the sequence. *)
Definition claves_ok (d : db) : Prop :=
  0 <= reservas_seq d
  /\ NoDup (map id_reserva (reservas d))
  /\ Forall (fun r => 0 < id_reserva r <= reservas_seq d) (reservas d).

End Engine.

Import Engine.

(** ** Concrete stores and requests used in the examples *)

Module Ejemplos.

(** The [n]-th hour of the day that starts at instant [0]. *)
Definition a_las (n : Z) : datetime := n * hora.

(** Two active users, one active space and one open incident on it; no
    reservation yet. *)
Definition tienda_vacia : db :=
  {| usuarios := [ {| u_id := 1; u_activo := true |};
                   {| u_id := 2; u_activo := true |} ];
     espacios := [ {| e_id := 1; e_nombre := py "Sala A101";
                      e_activo := true |} ];
     incidencias := [ {| i_id := 1; i_espacio := 1; i_estado := Abierta;
                         i_solucion := []; i_fecha_resolucion := None |} ];
     reservas := [];
     reservas_seq := 0 |}.

Definition tras (ops : list operacion) : db :=
  fold_left ejecutar ops tienda_vacia.

Definition reunion : pystr := py "Reunion de estudio".




(** The store with a block on 10:00-12:00. *)
Definition tienda_bloqueada : db :=
  tras [ OpApplyBlock 100 1 (Fecha (a_las 10)) (Fecha (a_las 12)) ].

(** The store with booking 1 of user 2, pending. *)
Definition tienda_pendiente : db :=
  tras [ OpCreate 100 2 1 (Fecha (a_las 10)) (Fecha (a_las 12)) reunion ].

(** The same booking, approved. *)
Definition tienda_aprobada : db :=
  tras [ OpCreate 100 2 1 (Fecha (a_las 10)) (Fecha (a_las 12)) reunion;
         OpDecide 1 (py "aprobada") 1 ].

(** The same booking, cancelled by its owner. *)
Definition tienda_cancelada : db :=
  tras [ OpCreate 100 2 1 (Fecha (a_las 10)) (Fecha (a_las 12)) reunion;
         OpCancel 1 2 ].


(** A booking of 08:00-08:30 and one of 10:00-11:00. *)
Definition tienda_manana : db :=
  tras [ OpCreate 100 2 1 (Fecha (a_las 8)) (Fecha (a_las 8 + hora / 2))
           reunion;
         OpCreate 200 2 1 (Fecha (a_las 10)) (Fecha (a_las 11)) reunion ].

(** The answer of a creation request that meets a conflict, framed. *)
Definition respuesta_conflicto : pystr :=
  format_response (py "book") (error_json EspacioNoDisponible).


End Ejemplos.

Import Ejemplos.

From Stdlib Require Import Sorted Permutation.

(** ** [booking_service.py]: the reservations of a user *)

Module Listado.

(** The one error answer of [handle_get_user_bookings]. *)
Inductive error_listado : Type :=
| IdUsuarioRequerido.   (* ID de usuario es requerido *)

(** One entry of the answer; the three dates are the instants that the
    entry prints with [isoformat()] (the driver hands the columns back as
    dates, as in the calendar). *)
Record resumen : Type := {
  r_id : Z;
  r_espacio : pystr;
  r_fecha_inicio : datetime;
  r_fecha_fin : datetime;
  r_estado : estado_reserva;
  r_motivo : pystr;
  r_fecha_solicitud : datetime
}.

Definition resumir (fila : reserva * espacio) : resumen :=
  {| r_id := id_reserva (fst fila);
     r_espacio := e_nombre (snd fila);
     r_fecha_inicio := fecha_inicio (fst fila);
     r_fecha_fin := fecha_fin (fst fila);
     r_estado := estado (fst fila);
     r_motivo := motivo (fst fila);
     r_fecha_solicitud := fecha_solicitud (fst fila) |}.

(** [FROM reservas r JOIN espacios e ON r.id_espacio = e.id_espacio
     WHERE r.id_usuario = :user_id] *)
Definition join_espacios (d : db) (user_id : Z) : list (reserva * espacio) :=
  flat_map
    (fun r =>
       if es_de user_id r
       then map (fun e => (r, e))
              (filter (fun e => e_id e =? id_espacio r) (espacios d))
       else [])
    (reservas d).

(** [ORDER BY r.fecha_solicitud DESC], rows of equal [fecha_solicitud] in
    the order of the join. *)
Fixpoint insertar_desc (x : reserva * espacio) (l : list (reserva * espacio))
  : list (reserva * espacio) :=
  match l with
  | [] => [x]
  | y :: l' =>
      if fecha_solicitud (fst y) <=? fecha_solicitud (fst x) then x :: l
      else y :: insertar_desc x l'
  end.

Definition order_by_solicitud_desc (l : list (reserva * espacio))
  : list (reserva * espacio) :=
  fold_right insertar_desc [] l.

(** [handle_get_user_bookings] *)
Definition handle_get_user_bookings (d : db) (user_id : Z)
  : error_listado + list resumen :=
  if negb (truthy user_id) then inl IdUsuarioRequerido
  else inr (map resumir (order_by_solicitud_desc (join_espacios d user_id))).

End Listado.

Import Listado.

(** ** [availability_service.py]: which spaces are free *)

Module Disponibilidad.

(** The field [hora]: absent or empty, or present, and then [momento] is what
    [strptime] makes of the date and the hour together ([None] when it
    raises [ValueError]). *)
Inductive campo_hora : Type :=
| HoraAusente
| HoraDada (momento : option datetime).

(** The field [duracion] under [int(...)]: absent (the default 1 applies), a
    number, text that [int] refuses ([ValueError]), or a value that [int]
    does not take ([TypeError]). *)
Inductive campo_duracion : Type :=
| DuracionAusente
| Duracion (horas : Z)
| DuracionInvalida
| DuracionTipoErroneo.

Inductive error_consulta : Type :=
| FechaRequerida             (* Fecha es requerida *)
| FormatoFechaHoraInvalido   (* Formato de fecha/hora inválido: ... *)
| ErrorInternoConsulta.      (* Error interno: ... *)

(** The columns [tipo] and [capacidad] of [espacios], which the rows of the
    store do not carry. *)
Record columnas : Type := {
  tipo_de : espacio -> pystr;
  capacidad_de : espacio -> Z
}.

(** One entry of the answer (its [horarios] is always the empty list). *)
Record disponibilidad : Type := {
  a_id : Z;
  a_nombre : pystr;
  a_tipo : pystr;
  a_capacidad : Z;
  a_disponible : bool
}.

(** [t.replace(hour=h)]: the other fields of [t] stay. *)
Definition replace_hour_only (h : Z) (t : datetime) : datetime :=
  t - t mod dia + h * hora + t mod hora.

(** [start_datetime], or [None] when [strptime] raises. *)
Definition inicio_consulta (fecha : campo_fecha) (hora_txt : campo_hora)
  : option datetime :=
  match hora_txt with
  | HoraDada momento => momento
  | HoraAusente =>
      match fecha with
      | Fecha t => Some (replace_hour_only 8 t)
      | _ => None
      end
  end.

(** The condition of the query of the spaces:
    [activo = 1], and [AND tipo = :tipo] when a type is asked for. *)
Definition espacio_pedido (cols : columnas) (tipo_espacio : pystr)
  (e : espacio) : bool :=
  e_activo e
  && (if (0 <? len tipo_espacio)%nat
      then PyStr.eqb (tipo_de cols e) tipo_espacio
      else true).

(** The body of the loop over the spaces. *)
Definition consultar (cols : columnas) (d : db)
  (start_time end_time : datetime) (e : espacio) : disponibilidad :=
  let conflict_count :=
    sql_count (en_conflicto (e_id e) start_time end_time) (reservas d) in
  {| a_id := e_id e;
     a_nombre := e_nombre e;
     a_tipo := tipo_de cols e;
     a_capacidad := capacidad_de cols e;
     a_disponible := (conflict_count =? 0)%nat |}.

(** [handle_check_availability] *)
Definition handle_check_availability (cols : columnas) (d : db)
  (fecha : campo_fecha) (hora_txt : campo_hora) (duracion : campo_duracion)
  (tipo_espacio : pystr) : error_consulta + list disponibilidad :=
  if negb (fecha_truthy fecha) then inl FechaRequerida
  else
    match inicio_consulta fecha hora_txt with
    | None => inl FormatoFechaHoraInvalido
    | Some start_datetime =>
        let lista end_datetime :=
          inr (map (consultar cols d start_datetime end_datetime)
                 (filter (espacio_pedido cols tipo_espacio) (espacios d))) in
        match duracion with
        | DuracionInvalida => inl FormatoFechaHoraInvalido
        | DuracionTipoErroneo => inl ErrorInternoConsulta
        | DuracionAusente => lista (start_datetime + 1 * hora)
        | Duracion horas => lista (start_datetime + horas * hora)
        end
    end.

End Disponibilidad.

Import Disponibilidad.

(** ** The request routers: [process_message] of the three services

    A router decodes the frame, checks the service tag, picks a handler by
    the keys that the payload holds and frames the handler's answer.  The
    handlers take the decoded payload; they are arguments of the router
    here, each a function from the store and the payload to the new store
    and the answer.  So is the text of the exception that Python raises
    when the payload is a value that [in] or an index does not apply to. *)

Module Router.

(** *** The tests on the payload *)

Fixpoint es_prefijo (p s : pystr) : bool :=
  match p, s with
  | [], _ => true
  | a :: p', b :: s' => (a =? b)%N && es_prefijo p' s'
  | _ :: _, [] => false
  end.

(** [p in s] for two strings. *)
Fixpoint subcadena (p s : pystr) : bool :=
  es_prefijo p s
  || match s with
     | [] => false
     | _ :: s' => subcadena p s'
     end.

(** [k in data]: a key of a dictionary, an item of a list, a part of a
    string; [None] is the [TypeError] on the other values. *)
Definition pertenece (k : pystr) (data : json) : option bool :=
  match data with
  | JDict pairs => Some (existsb (fun kv => PyStr.eqb k (fst kv)) pairs)
  | JList items =>
      Some (existsb (fun v => match v with
                              | JStr s => PyStr.eqb k s
                              | _ => false
                              end) items)
  | JStr s => Some (subcadena k s)
  | _ => None
  end.

(** [data[k] == v]; [None] is the exception that the index raises. *)
Definition campo_es (k v : pystr) (data : json) : option bool :=
  match data with
  | JDict pairs =>
      match find (fun kv => PyStr.eqb k (fst kv)) pairs with
      | Some (_, JStr s) => Some (PyStr.eqb s v)
      | Some _ => Some false
      | None => None
      end
  | _ => None
  end.

(** [a and b], [a or b]: the right side is looked at only when the left one
    does not decide. *)
Definition y_ (a b : option bool) : option bool :=
  match a with
  | Some true => b
  | _ => a
  end.

Definition o_ (a b : option bool) : option bool :=
  match a with
  | Some false => b
  | _ => a
  end.

(** [k in data] for a key written in the source. *)
Definition tiene (data : json) (k : string) : option bool :=
  pertenece (py k) data.

(** [data == {}] *)
Definition es_dict_vacio (data : json) : bool :=
  match data with
  | JDict [] => true
  | _ => false
  end.


(** [str(e)] of the two errors of [parse_message]. *)
Definition texto_value_error (e : value_error) : pystr :=
  match e with
  | MensajeMuyCorto => py "Mensaje muy corto"
  | ErrorAlDecodificarJSON => py "Error al decodificar JSON"
  end.

Definition error_dict (texto : pystr) : json :=
  JDict [(py "error", JStr texto)].

Definition manejador : Type := db -> json -> db * json.

(** The arms of the [if]/[elif] chain, in order: the first test that holds
    picks the handler; a test that raises ends the chain. *)
Inductive eleccion : Type :=
| Elegido (h : manejador)
| NoReconocida
| Excepcion.

Fixpoint elegir (ramas : list (option bool * manejador)) : eleccion :=
  match ramas with
  | [] => NoReconocida
  | (Some true, h) :: _ => Elegido h
  | (Some false, _) :: resto => elegir resto
  | (None, _) :: _ => Excepcion
  end.

(** What the three routers share: [tag] is the service's own tag and
    [ramas] its chain of tests. *)
Definition responder (tag : pystr) (str_excepcion : json -> pystr)
  (ramas : json -> list (option bool * manejador))
  (d : db) (message : pystr) : db * pystr :=
  match parse_message message with
  | inl e => (d, format_response tag (error_dict (texto_value_error e)))
  | inr (service_code, data) =>
      if negb (PyStr.eqb service_code tag)
      then (d, format_response tag (error_dict (py "Servicio incorrecto")))
      else
        match elegir (ramas data) with
        | Elegido h =>
            let (d', response) := h d data in
            (d', format_response tag response)
        | NoReconocida =>
            (d, format_response tag
                  (error_dict (py "Acción no reconocida")))
        | Excepcion =>
            (d, format_response tag (error_dict (str_excepcion data)))
        end
  end.

(** *** [BookingService.process_message] *)

Definition ramas_book
  (handle_create_booking handle_approve_booking handle_get_user_bookings
     handle_cancel_booking : manejador)
  (data : json) : list (option bool * manejador) :=
  [ (y_ (tiene data "user")
       (y_ (tiene data "space")
          (y_ (tiene data "inicio") (tiene data "fin"))),
     handle_create_booking);
    (o_ (tiene data "approve")
       (y_ (tiene data "reserva")
          (y_ (tiene data "estado") (tiene data "admin"))),
     handle_approve_booking);
    (o_ (tiene data "getmyreservas")
       (y_ (tiene data "user")
          (y_ (tiene data "action")
             (campo_es (py "action") (py "get") data))),
     handle_get_user_bookings);
    (o_ (tiene data "cancel")
       (y_ (tiene data "reserva")
          (y_ (tiene data "action")
             (campo_es (py "action") (py "cancel") data))),
     handle_cancel_booking) ].

Definition process_message_book (str_excepcion : json -> pystr)
  (handle_create_booking handle_approve_booking handle_get_user_bookings
     handle_cancel_booking : manejador) : db -> pystr -> db * pystr :=
  responder (py "book") str_excepcion
    (ramas_book handle_create_booking handle_approve_booking
       handle_get_user_bookings handle_cancel_booking).

(** *** [IncidentService.process_message] *)

Definition ramas_incid
  (handle_report_incident handle_apply_block handle_resolve_incident
     handle_get_incidents : manejador)
  (data : json) : list (option bool * manejador) :=
  [ (o_ (tiene data "report")
       (y_ (tiene data "space")
          (y_ (tiene data "tipo") (tiene data "descripcion"))),
     handle_report_incident);
    (o_ (tiene data "block")
       (y_ (tiene data "incidencia")
          (y_ (tiene data "inicio") (tiene data "fin"))),
     handle_apply_block);
    (o_ (tiene data "resolve")
       (y_ (tiene data "incidencia") (tiene data "solucion")),
     handle_resolve_incident);
    (o_ (tiene data "getall") (Some (es_dict_vacio data)),
     handle_get_incidents) ].

Definition process_message_incid (str_excepcion : json -> pystr)
  (handle_report_incident handle_apply_block handle_resolve_incident
     handle_get_incidents : manejador) : db -> pystr -> db * pystr :=
  responder (py "incid") str_excepcion
    (ramas_incid handle_report_incident handle_apply_block
       handle_resolve_incident handle_get_incidents).

(** *** [AvailabilityService.process_message] *)

Definition ramas_avail (handle_check_availability handle_get_calendar
                          : manejador)
  (data : json) : list (option bool * manejador) :=
  [ (y_ (tiene data "fecha") (tiene data "hora"), handle_check_availability);
    (o_ (tiene data "calendar")
       (y_ (tiene data "space") (tiene data "fecha")),
     handle_get_calendar) ].

Definition process_message_avail (str_excepcion : json -> pystr)
  (handle_check_availability handle_get_calendar : manejador)
  : db -> pystr -> db * pystr :=
  responder (py "avail") str_excepcion
    (ramas_avail handle_check_availability handle_get_calendar).

End Router.

Import Router.

(** ** Answers and effects of the requests *)

Module Efectos.

Definition es_error {A} (r : result A) : bool :=
  match r with
  | Err _ => true
  | Ok _ => false
  end.

(** The request is answered with [{"error": ...}]. *)
Definition respuesta_error (d : db) (op : operacion) : bool :=
  match op with
  | OpCreate now u s i f m =>
      es_error (snd (handle_create_booking d now u s i f m))
  | OpDecide r e a => es_error (snd (handle_approve_booking d r e a))
  | OpCancel r u => es_error (snd (handle_cancel_booking d r u))
  | OpApplyBlock now i ini fin =>
      es_error (snd (handle_apply_block d now i ini fin))
  | OpResolve now i s => es_error (snd (handle_resolve_incident d now i s))
  end.

(** The row that a decision or a cancellation names. *)
Definition objetivo (op : operacion) : option Z :=
  match op with
  | OpDecide reserva_id _ _ | OpCancel reserva_id _ => Some reserva_id
  | _ => None
  end.

(** The columns of a row other than [estado]. *)
Definition columnas_fijas (r : reserva) : reserva := con_estado Pendiente r.

(** The table after the cancelling [UPDATE] of [handle_apply_block]. *)
Definition cancelar_afectadas (space_id : Z) (ini fin : datetime)
  (t : list reserva) : list reserva :=
  map (fun r => if en_conflicto space_id ini fin r
                then con_estado Cancelada r else r) t.

End Efectos.

Import Efectos.

(** ** More concrete stores and requests *)

Module Casos.

(** A block on 10:00-12:00, the incident resolved, then a booking of the
    same hours. *)
Definition ops_bloqueo_y_resolucion : list operacion :=
  [ OpApplyBlock 100 1 (Fecha (a_las 10)) (Fecha (a_las 12));
    OpResolve 200 1 (py "Reparado");
    OpCreate 300 2 1 (Fecha (a_las 10)) (Fecha (a_las 12)) reunion ].

(** The space of the example store, and its columns [tipo] and
    [capacidad]. *)
Definition sala_a101 : espacio :=
  {| e_id := 1; e_nombre := py "Sala A101"; e_activo := true |}.

Definition columnas_sala : columnas :=
  {| tipo_de := fun _ => py "sala"; capacidad_de := fun _ => 30 |}.

(** A handler that leaves the store as it is and answers with its own
    name, and a text for the exceptions. *)
Definition eco (nombre : string) : manejador :=
  fun d _ => (d, JStr (py nombre)).

Definition sin_texto : json -> pystr := fun _ => [].

(** A payload with the keys of a creation and the marker of a
    cancellation, and its frame. *)
Definition carga_ambigua : json :=
  JDict [(py "cancel", JBool true); (py "reserva", JInt 1);
         (py "user", JInt 2); (py "space", JInt 1);
         (py "inicio", JStr (py "2025-01-01T10:00:00"));
         (py "fin", JStr (py "2025-01-01T12:00:00"))].

Definition mensaje_ambiguo : pystr :=
  format_response (py "book") carga_ambigua.

(** The request for the reservations of user 2 that [demo_sistema.py]
    sends to the booking service: [00020book ] followed by the dictionary
    with the one key [user] and the value ["2"]. *)
Definition mensaje_demo_listado : pystr :=
  py "00020book {" ++ [34%N] ++ py "user" ++ [34%N; 58%N; 34%N] ++ py "2"
  ++ [34%N] ++ py "}".

(** The store after the block has been applied and the incident resolved. *)
Definition tienda_resuelta : db :=
  tras [ OpApplyBlock 100 1 (Fecha (a_las 10)) (Fecha (a_las 12));
         OpResolve 200 1 (py "Reparado") ].

End Casos.

Import Casos.

(** * Properties *)

(** ** The codec *)

Local Open Scope N_scope.

Lemma eqb_eq (a b : pystr) : PyStr.eqb a b = true <-> a = b.
Proof.
  unfold PyStr.eqb. destruct (list_eq_dec N.eq_dec a b); split; congruence.
Qed.


(** *** Strings: [scanstring] undoes [encode_basestring] *)

Lemma hexval_hexdigit d : d < 16 -> hexval (hexdigit d) = Some d.
Proof.
  intros Hd. unfold hexval, hexdigit.
  destruct (d <? 10) eqn:E.
  - apply N.ltb_lt in E.
    replace ((48 <=? 48 + d) && (48 + d <=? 57)) with true.
    + f_equal. lia.
    + symmetry. apply andb_true_iff. split; apply N.leb_le; lia.
  - apply N.ltb_ge in E.
    replace ((48 <=? 87 + d) && (87 + d <=? 57)) with false.
    + replace ((97 <=? 87 + d) && (87 + d <=? 102)) with true.
      * f_equal. lia.
      * symmetry. apply andb_true_iff. split; apply N.leb_le; lia.
    + symmetry. apply andb_false_iff. right. apply N.leb_gt. lia.
Qed.

Lemma decode_escape_u c :
  c < 65536 ->
  decode_uXXXX (hexdigit ((c / 4096) mod 16)) (hexdigit ((c / 256) mod 16))
    (hexdigit ((c / 16) mod 16)) (hexdigit (c mod 16)) = Some c.
Proof.
  intros Hc. unfold decode_uXXXX.
  rewrite !hexval_hexdigit by (apply N.mod_lt; discriminate).
  f_equal.
  assert (H3 : c / 4096 < 16) by (apply N.Div0.div_lt_upper_bound; lia).
  rewrite (N.mod_small _ _ H3).
  pose proof (N.div_mod c 16 ltac:(discriminate)) as E1.
  pose proof (N.div_mod (c / 16) 16 ltac:(discriminate)) as E2.
  pose proof (N.div_mod (c / 256) 16 ltac:(discriminate)) as E3.
  rewrite N.Div0.div_div in E2, E3.
  change (16 * 16) with 256 in E2. change (256 * 16) with 4096 in E3.
  lia.
Qed.


Lemma scanstring_plain c r :
  (c =? 34) = false -> (c =? 92) = false -> (c <? 32) = false ->
  scanstring (c :: r) = push c (scanstring r).
Proof.
  intros E1 E2 E3. cbn [scanstring]. rewrite E1, E2, E3. reflexivity.
Qed.

Lemma scanstring_escape_u c r :
  c < 32 -> scanstring (escape_u c ++ r) = push c (scanstring r).
Proof.
  intros Hc. unfold escape_u. cbn [List.app scanstring].
  change (92 =? 34) with false. change (92 =? 92) with true.
  change (117 =? 117) with true. cbv iota.
  rewrite decode_escape_u by lia.
  replace ((55296 <=? c) && (c <=? 56319)) with false; [reflexivity|].
  symmetry. apply andb_false_iff. left. apply N.leb_gt. lia.
Qed.

Lemma scanstring_escape_char c r :
  scanstring (escape_char c ++ r) = push c (scanstring r).
Proof.
  unfold escape_char.
  destruct (c =? 34) eqn:E34; [apply N.eqb_eq in E34; subst; reflexivity|].
  destruct (c =? 92) eqn:E92; [apply N.eqb_eq in E92; subst; reflexivity|].
  destruct (c =? 10) eqn:E10; [apply N.eqb_eq in E10; subst; reflexivity|].
  destruct (c =? 13) eqn:E13; [apply N.eqb_eq in E13; subst; reflexivity|].
  destruct (c =? 9) eqn:E9; [apply N.eqb_eq in E9; subst; reflexivity|].
  destruct (c =? 8) eqn:E8; [apply N.eqb_eq in E8; subst; reflexivity|].
  destruct (c =? 12) eqn:E12; [apply N.eqb_eq in E12; subst; reflexivity|].
  destruct (c <? 32) eqn:E32.
  - apply scanstring_escape_u. now apply N.ltb_lt.
  - now apply scanstring_plain.
Qed.

Lemma scanstring_escaped s rest :
  scanstring (flat_map escape_char s ++ 34 :: rest) = Some (s, rest).
Proof.
  induction s as [|c s IH]; [reflexivity|].
  cbn [flat_map]. rewrite <- app_assoc, scanstring_escape_char, IH.
  reflexivity.
Qed.


(** *** Integers: the scanner reads [str(z)] back *)

Lemma delim_not_digit rest :
  delim rest -> match rest with c :: _ => is_digit c = false | [] => True end.
Proof.
  destruct rest as [|c r]; [trivial|].
  intros [-> | [-> | ->]]; reflexivity.
Qed.

Lemma delim_not_float rest : delim rest -> float_follows rest = false.
Proof.
  destruct rest as [|c [|d r]]; try reflexivity.
  intros [-> | [-> | ->]]; reflexivity.
Qed.

Lemma read_digits_digits u rest :
  delim rest -> read_digits (digits u ++ rest) = (u, rest).
Proof.
  intros Hd. induction u; cbn [digits List.app read_digits];
    try (rewrite IHu; reflexivity).
  destruct rest as [|c r]; [reflexivity|].
  apply delim_not_digit in Hd. cbn [read_digits]. rewrite Hd. reflexivity.
Qed.


(** The numeral of a positive number has no leading zero. *)
Lemma pos_to_uint_cabeza p : cabeza_no_nula (Pos.to_uint p).
Proof.
  pose proof (DecimalPos.Unsigned.to_uint_nonnil p) as Hnil.
  pose proof (DecimalPos.Unsigned.to_uint_nonzero p) as Hzero.
  assert (Hn : unorm (Pos.to_uint p) = Pos.to_uint p).
  { rewrite <- DecimalPos.Unsigned.to_of, DecimalPos.Unsigned.of_to.
    reflexivity. }
  destruct (Pos.to_uint p) as [|u| | | | | | | | |] eqn:E; cbn; trivial.
  - now apply Hnil.
  - rewrite unorm_D0 in Hn. unfold unorm in Hn.
    destruct (nzhead u) eqn:En; try discriminate.
    + apply Hzero. exact (eq_sym Hn).
    + exfalso. apply (nzhead_nonzero u u0). rewrite En. congruence.
Qed.

Lemma scan_number_digits (neg : bool) u rest :
  cabeza_no_nula u -> delim rest ->
  scan_number ((if neg then [45] else []) ++ digits u ++ rest)
  = Some (JInt (Z.of_int (if neg then Neg u else Pos u)), rest).
Proof.
  intros Hu Hd.
  pose proof (read_digits_digits u rest Hd) as Hr.
  pose proof (delim_not_float rest Hd) as Hf.
  destruct u; try contradiction; destruct neg;
    cbn [digits List.app] in *; unfold scan_number;
    cbn [N.eqb Pos.eqb is_digit N.leb N.compare Pos.compare Pos.compare_cont andb];
    rewrite Hr, Hf; reflexivity.
Qed.

Lemma scan_number_str_of_Z z rest :
  delim rest -> scan_number (str_of_Z z ++ rest) = Some (JInt z, rest).
Proof.
  intros Hd. unfold str_of_Z.
  rewrite <- (DecimalZ.of_to z) at 2.
  destruct z as [|p|p]; cbn [Z.to_int].
  - cbn. rewrite (delim_not_float rest Hd). reflexivity.
  - apply (scan_number_digits false). apply pos_to_uint_cabeza. exact Hd.
  - apply (scan_number_digits true). apply pos_to_uint_cabeza. exact Hd.
Qed.


(** *** Lists and dictionaries *)

Lemma digits_cabeza u : cabeza_no_nula u -> cabeza_valor (digits u).
Proof. destruct u; cbn; intuition. Qed.

Lemma dumps_cabeza v : cabeza_valor (dumps v).
Proof.
  destruct v as [|[]|z|s|items|pairs]; cbn; auto.
  unfold str_of_Z. destruct z as [|p|p]; cbn; auto.
  apply digits_cabeza, pos_to_uint_cabeza.
Qed.

Lemma skip_ws_cabeza s rest :
  cabeza_valor s -> skip_ws (s ++ rest) = s ++ rest.
Proof.
  destruct s as [|c s]; [contradiction|].
  intros [Hw _]. cbn [List.app skip_ws]. rewrite Hw. reflexivity.
Qed.

Lemma join_cons sep p q r :
  join sep (p :: q :: r) = p ++ sep ++ join sep (q :: r).
Proof. reflexivity. Qed.

Lemma join_cabeza sep (f : json -> pystr) x r :
  cabeza_valor (f x) -> cabeza_valor (join sep (map f (x :: r))).
Proof.
  intros H. destruct r; cbn [map]; [exact H|].
  rewrite join_cons. destruct (f x); [contradiction|exact H].
Qed.



Lemma array_loop_dumps items :
  Forall scan_ok items -> items <> [] ->
  forall fuel rest, (sizes items < fuel)%nat ->
    array_loop fuel (join item_separator (map dumps items) ++ 93 :: rest)
    = Some (items, rest).
Proof.
  induction items as [|x r IH]; [congruence|].
  intros HF _ fuel rest Hfuel. inversion HF as [|? ? Hx Hr]; subst.
  destruct fuel as [|f]; [inversion Hfuel|]. cbn [sizes fold_right] in Hfuel.
  fold (sizes r) in Hfuel.
  cbn [array_loop]. destruct r as [|y r'].
  - cbn [map join]. rewrite Hx by (cbn; auto; lia). reflexivity.
  - change (map dumps (x :: y :: r')) with (dumps x :: map dumps (y :: r')).
    change (join item_separator (dumps x :: map dumps (y :: r')))
      with (dumps x ++ item_separator ++ join item_separator (map dumps (y :: r'))).
    rewrite <- !app_assoc.
    rewrite Hx by (cbn; auto; lia).
    cbn [item_separator List.app skip_ws is_ws N.eqb Pos.eqb orb].
    rewrite skip_ws_cabeza by (apply (join_cabeza _ dumps), dumps_cabeza).
    rewrite (IH Hr ltac:(discriminate) f rest) by lia.
    reflexivity.
Qed.


Lemma pair_text_app k v rest :
  pair_text (k, v) ++ rest
  = 34 :: flat_map escape_char k ++ 34 :: 58 :: 32 :: dumps v ++ rest.
Proof.
  unfold pair_text, encode_basestring, key_separator. cbn [fst snd].
  cbn [List.app]. rewrite <- !app_assoc. reflexivity.
Qed.

Lemma join_pairs_app p r rest :
  join item_separator (map pair_text (p :: r)) ++ rest
  = 34 :: List.tl (join item_separator (map pair_text (p :: r)) ++ rest).
Proof.
  destruct p as [k v]. destruct r as [|q r].
  - cbn [map join]. rewrite pair_text_app. reflexivity.
  - change (map pair_text ((k, v) :: q :: r))
      with (pair_text (k, v) :: map pair_text (q :: r)).
    change (join item_separator (pair_text (k, v) :: map pair_text (q :: r)))
      with (pair_text (k, v) ++ item_separator
              ++ join item_separator (map pair_text (q :: r))).
    rewrite <- app_assoc, pair_text_app. reflexivity.
Qed.


Lemma object_loop_dumps pairs :
  Forall (fun kv => scan_ok (snd kv)) pairs -> pairs <> [] ->
  forall fuel rest, (sizes_pairs pairs < fuel)%nat ->
    object_loop fuel
      (List.tl (join item_separator (map pair_text pairs) ++ 125 :: rest))
    = Some (pairs, rest).
Proof.
  induction pairs as [|[k v] r IH]; [congruence|].
  intros HF _ fuel rest Hfuel. inversion HF as [|? ? Hv Hr]; subst.
  cbn [snd] in Hv.
  destruct fuel as [|f]; [inversion Hfuel|].
  cbn [sizes_pairs fold_right snd] in Hfuel. fold (sizes_pairs r) in Hfuel.
  cbn [object_loop]. destruct r as [|q r'].
  - cbn [map join]. rewrite pair_text_app. cbn [List.tl].
    rewrite scanstring_escaped.
    cbn [skip_ws is_ws N.eqb Pos.eqb orb].
    rewrite skip_ws_cabeza by apply dumps_cabeza.
    rewrite Hv by (cbn; auto; lia). reflexivity.
  - change (map pair_text ((k, v) :: q :: r'))
      with (pair_text (k, v) :: map pair_text (q :: r')).
    change (join item_separator (pair_text (k, v) :: map pair_text (q :: r')))
      with (pair_text (k, v) ++ item_separator
              ++ join item_separator (map pair_text (q :: r'))).
    rewrite <- !app_assoc, pair_text_app. cbn [List.tl].
    rewrite scanstring_escaped.
    cbn [skip_ws is_ws N.eqb Pos.eqb orb].
    rewrite skip_ws_cabeza by apply dumps_cabeza.
    rewrite Hv by (cbn; auto; lia).
    cbn [item_separator List.app skip_ws is_ws N.eqb Pos.eqb orb].
    rewrite join_pairs_app.
    cbn [skip_ws is_ws N.eqb Pos.eqb orb].
    rewrite (IH Hr ltac:(discriminate) f rest) by lia.
    reflexivity.
Qed.

(** [dict(pairs)] of pairs with distinct keys is the list of pairs. *)
Lemma dict_set_fresh k v d :
  existsb (PyStr.eqb k) (map fst d) = false -> dict_set k v d = d ++ [(k, v)].
Proof.
  induction d as [|[k' v'] d IH]; [reflexivity|].
  cbn [map fst existsb dict_set List.app]. intros H.
  apply orb_false_iff in H. destruct H as [H1 H2].
  rewrite H1, IH by exact H2. reflexivity.
Qed.

Lemma dict_of_pairs_acc ps :
  forall acc,
    nodupb (map fst ps) = true ->
    (forall k, In k (map fst ps) ->
               existsb (PyStr.eqb k) (map fst acc) = false) ->
    fold_left (fun d kv => dict_set (fst kv) (snd kv) d) ps acc = acc ++ ps.
Proof.
  induction ps as [|[k v] ps IH]; intros acc Hnd Hfresh.
  - cbn. now rewrite List.app_nil_r.
  - cbn [fold_left fst snd]. cbn [map fst nodupb] in Hnd.
    apply andb_true_iff in Hnd. destruct Hnd as [Hk Hnd].
    apply negb_true_iff in Hk.
    rewrite dict_set_fresh by (apply Hfresh; now left).
    rewrite IH; [now rewrite <- app_assoc| exact Hnd |].
    intros k' Hin. rewrite map_app, existsb_app.
    rewrite Hfresh by (now right). cbn [map fst existsb orb].
    rewrite orb_false_r. destruct (PyStr.eqb k' k) eqn:E; [|reflexivity].
    apply eqb_eq in E. subst k'. exfalso.
    assert (existsb (PyStr.eqb k) (map fst ps) = true); [|congruence].
    apply existsb_exists. exists k. split; [exact Hin|].
    now apply eqb_eq.
Qed.

Lemma dict_of_pairs_nodup ps :
  nodupb (map fst ps) = true -> dict_of_pairs ps = ps.
Proof.
  intros H. unfold dict_of_pairs. rewrite dict_of_pairs_acc; auto.
Qed.

(** The decoder reads back an encoded value and stops right after it. *)
Lemma scan_once_dumps v : wf v = true -> scan_ok v.
Proof.
  induction v as [|b|z|s|items IH|pairs IH] using json_induction;
    intros Hwf fuel rest Hfuel Hd;
    (destruct fuel as [|f]; [inversion Hfuel|]).
  - reflexivity.
  - destruct b; reflexivity.
  - pose proof (scan_number_str_of_Z z rest Hd) as Hn.
    pose proof (dumps_cabeza (JInt z)) as Hc.
    cbn [dumps] in *. destruct (str_of_Z z) as [|c r] eqn:E; [contradiction|].
    unfold str_of_Z in E.
    assert (Hc' : c = 45 \/ is_digit c = true).
    { destruct z as [|p|p]; cbn in E.
      - injection E as <- _. now right.
      - pose proof (pos_to_uint_cabeza p) as Hp.
        destruct (Pos.to_uint p); try contradiction; injection E as <- _;
          now right.
      - injection E as <- _. now left. }
    cbn [List.app scan_once] in *.
    destruct Hc' as [-> | Hc']; [exact Hn|].
    unfold is_digit in Hc'. apply andb_true_iff in Hc'.
    destruct Hc' as [H1 H2]. apply N.leb_le in H1, H2.
    repeat match goal with
           | |- context [c =? ?n] =>
               let E := fresh in
               destruct (c =? n) eqn:E; [apply N.eqb_eq in E; lia|clear E]
           end.
    exact Hn.
  - cbn [dumps scan_once encode_basestring List.app].
    change (34 =? 34) with true. cbv iota.
    rewrite <- app_assoc. cbn [List.app]. rewrite scanstring_escaped.
    reflexivity.
  - cbn [wf] in Hwf. cbn [size] in Hfuel. fold (sizes items) in Hfuel.
    assert (HF : Forall scan_ok items).
    { rewrite forallb_forall in Hwf. rewrite Forall_forall in *. auto. }
    cbn [dumps]. rewrite <- !app_comm_cons, <- app_assoc.
    cbn [List.app scan_once N.eqb Pos.eqb].
    destruct items as [|x r].
    + reflexivity.
    + pose proof (join_cabeza item_separator dumps x r (dumps_cabeza x))
        as Hj.
      rewrite skip_ws_cabeza by exact Hj.
      destruct (join item_separator (map dumps (x :: r))) as [|c1 r1] eqn:E;
        [contradiction|].
      destruct Hj as [_ H93]. cbn [List.app]. rewrite H93.
      change (c1 :: r1 ++ 93 :: rest) with ((c1 :: r1) ++ 93 :: rest).
      rewrite <- E.
      rewrite array_loop_dumps; auto; [discriminate | lia].
  - cbn [wf] in Hwf. apply andb_true_iff in Hwf. destruct Hwf as [Hnd Hwf].
    cbn [size] in Hfuel. fold (sizes_pairs pairs) in Hfuel.
    assert (HF : Forall (fun kv => scan_ok (snd kv)) pairs).
    { rewrite forallb_forall in Hwf. rewrite Forall_forall in *. auto. }
    cbn [dumps]. fold pair_text.
    rewrite <- !app_comm_cons, <- app_assoc.
    cbn [List.app scan_once N.eqb Pos.eqb].
    destruct pairs as [|p r].
    + reflexivity.
    + rewrite join_pairs_app. cbn [skip_ws is_ws N.eqb Pos.eqb orb].
      rewrite object_loop_dumps; auto; [|discriminate|lia].
      rewrite dict_of_pairs_nodup by exact Hnd. reflexivity.
Qed.

(** *** The counter that [loads] starts with is enough *)

Lemma len_app (a b : pystr) : len (a ++ b) = (len a + len b)%nat.
Proof. apply List.length_app. Qed.

Lemma cabeza_len s : cabeza_valor s -> (1 <= len s)%nat.
Proof. destruct s; [contradiction|cbn; lia]. Qed.

Lemma sizes_le_len items :
  Forall (fun v => (size v <= len (dumps v))%nat) items ->
  (sizes items <= len (join item_separator (map dumps items)) + 1)%nat.
Proof.
  induction items as [|x r IH]; intros HF; [cbn; lia|].
  inversion HF as [|? ? Hx Hr]; subst. specialize (IH Hr).
  cbn [sizes fold_right]. fold (sizes r). destruct r as [|y r'].
  - cbn [map join sizes fold_right]. lia.
  - change (map dumps (x :: y :: r')) with (dumps x :: map dumps (y :: r')).
    change (join item_separator (dumps x :: map dumps (y :: r')))
      with (dumps x ++ item_separator
              ++ join item_separator (map dumps (y :: r'))).
    rewrite !len_app. cbn [item_separator len List.length]. unfold len in *.
    lia.
Qed.

Lemma sizes_pairs_le_len pairs :
  Forall (fun kv => (size (snd kv) <= len (dumps (snd kv)))%nat) pairs ->
  (sizes_pairs pairs
   <= len (join item_separator (map pair_text pairs)) + 1)%nat.
Proof.
  assert (Hp : forall kv, (len (dumps (snd kv)) <= len (pair_text kv))%nat).
  { intros kv. unfold pair_text. rewrite !len_app. lia. }
  induction pairs as [|x r IH]; intros HF; [cbn; lia|].
  inversion HF as [|? ? Hx Hr]; subst. specialize (IH Hr).
  pose proof (Hp x) as Hpx.
  cbn [sizes_pairs fold_right]. fold (sizes_pairs r). destruct r as [|y r'].
  - cbn [map join sizes_pairs fold_right]. lia.
  - change (map pair_text (x :: y :: r'))
      with (pair_text x :: map pair_text (y :: r')).
    change (join item_separator (pair_text x :: map pair_text (y :: r')))
      with (pair_text x ++ item_separator
              ++ join item_separator (map pair_text (y :: r'))).
    rewrite !len_app. cbn [item_separator len List.length]. unfold len in *.
    lia.
Qed.

Lemma size_le_len v : (size v <= len (dumps v))%nat.
Proof.
  induction v as [|b|z|s|items IH|pairs IH] using json_induction.
  - cbn; lia.
  - destruct b; cbn; lia.
  - apply cabeza_len, (dumps_cabeza (JInt z)).
  - cbn; lia.
  - pose proof (sizes_le_len _ IH) as H. cbn [size dumps]. fold (sizes items).
    cbn [len List.length]. rewrite List.length_app. cbn [List.length].
    unfold len in H. apply le_n_S. exact H.
  - pose proof (sizes_pairs_le_len _ IH) as H. cbn [size dumps].
    fold (sizes_pairs pairs). fold pair_text.
    cbn [len List.length]. rewrite List.length_app. cbn [List.length].
    unfold len in H. apply le_n_S. exact H.
Qed.

(** [json.loads(json.dumps(v)) == v] *)
Lemma loads_dumps v : wf v = true -> loads (dumps v) = Some v.
Proof.
  intros Hwf. unfold loads.
  rewrite <- (List.app_nil_r (dumps v)) at 2.
  rewrite skip_ws_cabeza by apply dumps_cabeza.
  rewrite (scan_once_dumps _ Hwf); [reflexivity| |exact I].
  pose proof (size_le_len v). lia.
Qed.


(** ** The frame *)

Local Open Scope nat_scope.

(** *** The length numeral *)

Lemma unorm_fix u : unorm u = u -> u = zero \/ cabeza_no_nula u.
Proof.
  intros Hn. destruct u; cbn; auto.
  left. rewrite unorm_D0 in Hn. unfold unorm in Hn.
  destruct (nzhead u) eqn:En;
    try (exfalso; apply (nzhead_nonzero u u); congruence).
  exact (eq_sym Hn).
Qed.

Lemma nat_to_uint_norm n : unorm (Nat.to_uint n) = Nat.to_uint n.
Proof.
  rewrite <- DecimalNat.Unsigned.to_of, DecimalNat.Unsigned.of_to.
  reflexivity.
Qed.

Lemma of_uint_acc_lower d :
  forall acc, acc * 10 ^ len (digits d) <= Nat.of_uint_acc d acc.
Proof.
  induction d; intros acc; cbn [digits len List.length Nat.of_uint_acc];
    [rewrite Nat.pow_0_r; lia | ..];
    rewrite Nat.tail_mul_spec, Nat.pow_succ_r';
    (eapply Nat.le_trans; [|apply IHd]);
    fold (len (digits d)); nia.
Qed.

(** A length below 100000 prints in at most five digits. *)
Lemma str_of_nat_len n :
  (Z.of_nat n < 100000)%Z -> len (str_of_nat n) <= 5.
Proof.
  intros Hn. unfold str_of_nat.
  destruct (unorm_fix _ (nat_to_uint_norm n)) as [E | Hc];
    [rewrite E; cbn; lia|].
  assert (Hv : Nat.of_uint (Nat.to_uint n) = n)
    by apply DecimalNat.Unsigned.of_to.
  destruct (Nat.to_uint n) as [|d|d|d|d|d|d|d|d|d|d]; try contradiction;
    unfold Nat.of_uint in Hv; cbn [Nat.of_uint_acc] in Hv;
    rewrite Nat.tail_mul_spec in Hv;
    match type of Hv with
    | Nat.of_uint_acc _ ?a = _ => pose proof (of_uint_acc_lower d a) as Hl
    end;
    rewrite Hv in Hl; cbn [digits len List.length];
    fold (len (digits d));
    destruct (Nat.le_gt_cases (len (digits d)) 4) as [|Hbig]; try lia;
    exfalso;
    assert (H5 : 10 ^ 5 <= 10 ^ len (digits d))
      by (apply Nat.pow_le_mono_r; lia);
    apply (f_equal Z.of_nat) in Hv;
    assert (Hz : (Z.of_nat (10 ^ 5) = 100000)%Z)
      by (rewrite Nat2Z.inj_pow; reflexivity);
    nia.
Qed.

Lemma str_of_nat_cabeza n :
  match str_of_nat n with
  | [] => False
  | c :: _ => is_digit c = true
  end.
Proof.
  unfold str_of_nat.
  destruct (unorm_fix _ (nat_to_uint_norm n)) as [E | Hc];
    [rewrite E; reflexivity|].
  destruct (Nat.to_uint n); try contradiction; reflexivity.
Qed.

Lemma len_repeat (c : codepoint) n : len (repeat c n) = n.
Proof. apply repeat_length. Qed.

Lemma zfill_digits w s :
  match s with [] => False | c :: _ => is_digit c = true end ->
  zfill w s = repeat 48%N (w - len s) ++ s.
Proof.
  destruct s as [|c s]; [contradiction|]. intros Hc. unfold zfill.
  unfold is_digit in Hc. apply andb_true_iff in Hc. destruct Hc as [H1 H2].
  apply N.leb_le in H1, H2.
  destruct (c =? 43)%N eqn:E1; [apply N.eqb_eq in E1; lia|].
  destruct (c =? 45)%N eqn:E2; [apply N.eqb_eq in E2; lia|].
  reflexivity.
Qed.

Lemma len_zfill_str_of_nat n :
  len (str_of_nat n) <= 5 -> len (zfill 5 (str_of_nat n)) = 5.
Proof.
  intros H. rewrite zfill_digits by apply str_of_nat_cabeza.
  rewrite len_app, len_repeat. lia.
Qed.

(** *** The fields of a frame *)

Lemma len_ljust w s : w <= len (ljust w s).
Proof. unfold ljust. rewrite len_app, len_repeat. lia. Qed.

Lemma len_tag5 tag : len (upto 5 (ljust 5 tag)) = 5.
Proof.
  unfold upto, len. rewrite firstn_length_le; [reflexivity|].
  apply (len_ljust 5 tag).
Qed.


(** The frame that [format_response] builds, cut at its fields. *)
Lemma format_response_fields tag data :
  format_response tag data
  = zfill 5 (str_of_nat (5 + len (dumps data)))
      ++ upto 5 (ljust 5 tag) ++ dumps data.
Proof.
  unfold format_response. cbv zeta. rewrite len_app, len_tag5. reflexivity.
Qed.

(** [parse_message] cuts a frame at the offsets 5 and 10. *)
Lemma parse_message_fields (l t j : pystr) :
  len l = 5 -> len t = 5 ->
  parse_message (l ++ t ++ j)
  = match j with
    | [] => inr (strip t, JDict [])
    | _ :: _ =>
        match loads j with
        | Some data => inr (strip t, data)
        | None => inl ErrorAlDecodificarJSON
        end
    end.
Proof.
  intros Hl Ht. unfold parse_message.
  assert (Hlen : (len (l ++ t ++ j) <? 10) = false).
  { apply Nat.ltb_ge. rewrite !len_app. lia. }
  rewrite Hlen.
  assert (Hs : slice 5 10 (l ++ t ++ j) = t).
  { unfold slice. change (10 - 5) with 5. unfold len in *.
    rewrite skipn_app, Hl, Nat.sub_diag, skipn_all2 by lia.
    rewrite skipn_O, List.app_nil_l.
    rewrite firstn_app, Ht, Nat.sub_diag, firstn_O, List.app_nil_r.
    apply firstn_all2. lia. }
  assert (Hf : from 10 (l ++ t ++ j) = j).
  { unfold from. rewrite List.app_assoc.
    rewrite skipn_app. unfold len in *.
    rewrite List.length_app, Hl, Ht. change (10 - (5 + 5)) with 0.
    rewrite skipn_O, skipn_all2 by (rewrite List.length_app; lia).
    reflexivity. }
  rewrite Hs, Hf. reflexivity.
Qed.

Lemma parse_format tag data :
  wf data = true ->
  (Z.of_nat (5 + len (dumps data)) < 100000)%Z ->
  parse_message (format_response tag data)
  = inr (strip (upto 5 (ljust 5 tag)), data).
Proof.
  intros Hwf Hlen. rewrite format_response_fields.
  rewrite parse_message_fields;
    [| apply len_zfill_str_of_nat, str_of_nat_len, Hlen | apply len_tag5].
  rewrite loads_dumps by exact Hwf.
  pose proof (dumps_cabeza data) as Hc. destruct (dumps data); [contradiction|].
  reflexivity.
Qed.

(** UTF-8 never has fewer bytes than code points. *)
(** *** Characters and bytes *)

Lemma encode_utf8_length s :
  forall bytes, encode_utf8 s = Some bytes -> len s <= List.length bytes.
Proof.
  induction s as [|c s IH]; intros bytes H.
  - cbn; lia.
  - cbn [encode_utf8] in H.
    destruct (encode_codepoint c) as [bs|] eqn:Ec; [|discriminate].
    destruct (encode_utf8 s) as [rest|] eqn:Es; [|discriminate].
    injection H as <-. specialize (IH rest eq_refl).
    rewrite List.length_app. cbn [len List.length]. unfold len in IH.
    assert (1 <= List.length bs); [|lia].
    unfold encode_codepoint in Ec.
    repeat match type of Ec with
           | (if ?b then _ else _) = _ => destruct b
           end; try discriminate; injection Ec as <-; cbn; lia.
Qed.

(** On ASCII text the two lengths agree. *)
Lemma encode_utf8_ascii s :
  Forall (fun c => (c < 128)%N) s ->
  exists bytes, encode_utf8 s = Some bytes /\ List.length bytes = len s.
Proof.
  induction 1 as [|c s Hc _ [rest [Hr Hl]]].
  - exists []. split; reflexivity.
  - exists (byte_of_N c :: rest). cbn [encode_utf8]. unfold encode_codepoint.
    apply N.ltb_lt in Hc. rewrite Hc, Hr. split; [reflexivity|].
    cbn [len List.length]. unfold len in Hl. now rewrite Hl.
Qed.

(** *** Padding and [strip] *)







(** C8 (amended): the frame that [format_response] emits is the decimal
    numeral of 5 plus the number of characters (code points) of the
    serialized payload, padded with zeros to at least five digits, then the
    tag cut or padded to exactly 5 characters, then the payload; the numeral
    is computed by [format_response] itself.  It equals the number of UTF-8
    bytes of tag and payload when these are ASCII and never exceeds it. *)
Theorem len_field_counts_characters tag data :
  let tag5 := upto 5 (ljust 5 tag) in
  let n := 5 + len (dumps data) in
  len tag5 = 5
  /\ format_response tag data
     = (repeat 48%N (5 - len (str_of_nat n)) ++ str_of_nat n)
         ++ tag5 ++ dumps data
  /\ (Forall (fun c => (c < 128)%N) (tag5 ++ dumps data) ->
      exists bytes, encode_utf8 (tag5 ++ dumps data) = Some bytes
                    /\ List.length bytes = n)
  /\ (forall bytes, encode_utf8 (tag5 ++ dumps data) = Some bytes ->
                    n <= List.length bytes).
Proof.
  intros tag5 n. pose proof (len_tag5 tag) as Ht. fold tag5 in Ht.
  assert (Hn : len (tag5 ++ dumps data) = n)
    by (rewrite len_app, Ht; reflexivity).
  split; [exact Ht|]. split; [|split].
  - rewrite format_response_fields. fold tag5. fold n.
    now rewrite zfill_digits by apply str_of_nat_cabeza.
  - intros Hascii. destruct (encode_utf8_ascii _ Hascii) as [bytes [He Hl]].
    exists bytes. split; [exact He|]. now rewrite Hl.
  - intros bytes He. rewrite <- Hn. now apply encode_utf8_length.
Qed.

Lemma len_field_is_not_byte_length :
  upto 5 respuesta_conflicto = zfill 5 (str_of_nat 62)
  /\ option_map (@List.length _) (encode_utf8 (from 5 respuesta_conflicto))
     = Some 63.
Proof. split; vm_compute; reflexivity. Qed.


(** ** The booking engine *)

Local Open Scope Z_scope.

(** ** Tables without double booking *)

Section Tablas.
Variable estados : list estado_reserva.



End Tablas.




Lemma sql_count_cero {A} (p : A -> bool) t :
  (0 <? sql_count p t)%nat = false <-> forall r, In r t -> p r = false.
Proof.
  unfold sql_count. split.
  - intros H r Hr. destruct (p r) eqn:E; [|reflexivity].
    assert (Hin : In r (filter p t)) by (apply filter_In; auto).
    destruct (filter p t); [contradiction|discriminate].
  - intros H. replace (filter p t) with (@nil A); [reflexivity|].
    symmetry. induction t as [|x t IH]; [reflexivity|]. cbn.
    rewrite (H x) by now left. apply IH. intros r Hr. apply H. now right.
Qed.

(** The arms of a handler that answer with an error leave the store as it
    is: [rechazos H] walks through the checks of the handler in the goal and
    closes those arms with [H], the property of the store before the
    request. *)
Ltac rechazos H :=
  repeat first
    [ exact H
    | match goal with
      | |- context [match ?c with
                    | FechaAusente => _ | FechaInvalida => _ | Fecha _ => _
                    end] => is_var c; destruct c
      | |- context [if ?b then (_, Err _) else _] => destruct b eqn:?
      | |- context [match sql_first ?p ?t with Some _ => _ | None => _ end] =>
          destruct (sql_first p t) eqn:?
      | |- context [match find ?p valid_states with
                    | Some _ => _ | None => _
                    end] => destruct (find p valid_states)
      | |- context [match mas_reciente ?b ?l with
                    | Some _ => _ | None => _
                    end] => destruct (mas_reciente b l)
      end ].




(** ** Creating a reservation *)

Lemma find_existe {A} (p : A -> bool) (l : list A) :
  (exists x, In x l /\ p x = true) -> exists y, find p l = Some y.
Proof.
  intros [x [Hx Hp]]. destruct (find p l) eqn:E; [eauto|].
  rewrite (find_none p l E x Hx) in Hp. discriminate.
Qed.

Lemma sql_count_pos {A} (p : A -> bool) t :
  (0 <? sql_count p t)%nat = true <-> exists r, In r t /\ p r = true.
Proof.
  split.
  - intros H. unfold sql_count in H.
    destruct (filter p t) as [|x l] eqn:E; [discriminate|].
    exists x. apply filter_In. rewrite E. now left.
  - intros [r [Hr Hp]].
    destruct (0 <? sql_count p t)%nat eqn:E; [reflexivity|].
    rewrite (proj1 (sql_count_cero p t) E r Hr) in Hp. discriminate.
Qed.

Lemma en_conflicto_spec space_id ini fin r :
  en_conflicto space_id ini fin r = true <->
  id_espacio r = space_id /\ pendiente_o_aprobada r = true
  /\ fecha_inicio r < fin /\ ini < fecha_fin r.
Proof.
  unfold en_conflicto.
  rewrite !andb_true_iff, Z.eqb_eq, Z.ltb_lt, Z.gtb_lt. intuition.
Qed.

(** The query that reads the identifier back finds the new row when the
    request is later than every stored one. *)
Lemma mas_reciente_snoc rows nueva :
  forall best,
    (forall r, In r rows -> fecha_solicitud r < fecha_solicitud nueva) ->
    match best with
    | Some b => fecha_solicitud b < fecha_solicitud nueva
    | None => True
    end ->
    mas_reciente best (rows ++ [nueva]) = Some nueva.
Proof.
  induction rows as [|x rows IH]; intros best Hrows Hbest.
  - cbn. destruct best as [b|]; [|reflexivity].
    apply Z.ltb_lt in Hbest. now rewrite Hbest.
  - cbn [List.app mas_reciente].
    assert (Hx : fecha_solicitud x < fecha_solicitud nueva)
      by (apply Hrows; now left).
    assert (Hr : forall r, In r rows ->
                           fecha_solicitud r < fecha_solicitud nueva)
      by (intros r Hin; apply Hrows; now right).
    destruct best as [b|]; [destruct (fecha_solicitud b <? fecha_solicitud x)|];
      apply IH; auto.
Qed.

Lemma truthy_ne id : id <> 0 -> truthy id = true.
Proof. intros H. unfold truthy. now apply negb_true_iff, Z.eqb_neq. Qed.


Lemma ocupado_count d space_id ini fin :
  (0 <? sql_count (en_conflicto space_id ini fin) (reservas d))%nat = true
  <-> ocupado d space_id ini fin.
Proof.
  rewrite sql_count_pos. unfold ocupado.
  split; intros [r [Hr H]]; exists r; (split; [exact Hr|]);
    now apply en_conflicto_spec.
Qed.

(** A request that passes the field, range, user and space checks is
    decided by the conflict query alone. *)
Lemma create_validado d now user_id space_id ini fin texto :
  user_id <> 0 -> space_id <> 0 -> ini < fin ->
  (exists u, In u (usuarios d) /\ u_id u = user_id /\ u_activo u = true) ->
  (exists e, In e (espacios d) /\ e_id e = space_id /\ e_activo e = true) ->
  let nueva := nueva_reserva (reservas_seq d + 1) user_id space_id ini fin
                 texto now in
  let d' := con_reservas d (reservas d ++ [nueva]) (reservas_seq d + 1) in
  handle_create_booking d now user_id space_id (Fecha ini) (Fecha fin) texto
  = if (0 <? sql_count (en_conflicto space_id ini fin) (reservas d))%nat
    then (d, Err EspacioNoDisponible)
    else
      match mas_reciente None
              (filter (misma_reserva user_id space_id ini fin) (reservas d)
               ++ [nueva]) with
      | Some r => (d', Ok (id_reserva r))
      | None => (d', Err ErrorInterno)
      end.
Proof.
  intros Hu Hs Hr [u [Hu1 [Hu2 Hu3]]] [e [He1 [He2 He3]]] nueva d'.
  unfold handle_create_booking.
  rewrite (truthy_ne _ Hu), (truthy_ne _ Hs). cbn [fecha_truthy andb negb].
  replace (fin <=? ini) with false by (symmetry; apply Z.leb_gt; lia).
  destruct (find_existe (fun u => (u_id u =? user_id) && u_activo u)
              (usuarios d)) as [u' Eu].
  { exists u. rewrite Hu2, Hu3, Z.eqb_refl. auto. }
  unfold sql_first at 1. rewrite Eu.
  destruct (find_existe (fun e => (e_id e =? space_id) && e_activo e)
              (espacios d)) as [e' Ee].
  { exists e. rewrite He2, He3, Z.eqb_refl. auto. }
  unfold sql_first at 1. rewrite Ee.
  destruct (0 <? sql_count _ _)%nat; [reflexivity|].
  cbv zeta. cbn [reservas con_reservas]. fold nueva. fold d'.
  rewrite filter_app. cbn [filter].
  replace (misma_reserva user_id space_id ini fin nueva) with true;
    [reflexivity|].
  unfold misma_reserva, es_de, nueva. cbn. now rewrite !Z.eqb_refl.
Qed.


(** ** Deciding and cancelling *)

Lemma find_ninguno {A} (p : A -> bool) (l : list A) :
  (forall x, In x l -> p x = false) -> find p l = None.
Proof.
  induction l as [|x l IH]; intros H; [reflexivity|]. cbn.
  rewrite (H x) by now left. apply IH. intros y Hy. apply H. now right.
Qed.

Lemma valid_state_found nuevo :
  nuevo = Aprobada \/ nuevo = Rechazada ->
  find (fun e => PyStr.eqb (texto_estado nuevo) (texto_estado e)) valid_states
  = Some nuevo
  /\ (0 <? len (texto_estado nuevo))%nat = true.
Proof. intros [-> | ->]; split; vm_compute; reflexivity. Qed.


(** C3 (amended): [handle_approve_booking] with outcome [aprobada] or
    [rechazada] answers "Reserva no encontrada" when no row has the
    identifier; when a row has it, the request succeeds whatever the row's
    current state is and sets the state to the outcome. *)
Theorem decide_ignores_current_state d reserva_id estado_txt admin_id nuevo :
  reserva_id <> 0 -> admin_id <> 0 ->
  nuevo = Aprobada \/ nuevo = Rechazada ->
  estado_txt = texto_estado nuevo ->
  ((forall r, In r (reservas d) -> id_reserva r <> reserva_id) ->
   handle_approve_booking d reserva_id estado_txt admin_id
   = (d, Err ReservaNoEncontrada))
  /\ ((exists r, In r (reservas d) /\ id_reserva r = reserva_id) ->
      handle_approve_booking d reserva_id estado_txt admin_id
      = (con_reservas d (poner_estado reserva_id nuevo (reservas d))
           (reservas_seq d),
         Ok tt)).
Proof.
  intros Hr Ha Hn ->. destruct (valid_state_found nuevo Hn) as [Hf Hl].
  unfold handle_approve_booking.
  rewrite (truthy_ne _ Hr), (truthy_ne _ Ha), Hl, Hf. cbn [andb negb].
  split.
  - intros Hno. unfold sql_first. rewrite find_ninguno; [reflexivity|].
    intros r Hin. apply Z.eqb_neq. now apply Hno.
  - intros [r [Hin Hid]].
    destruct (find_existe (fun r => id_reserva r =? reserva_id) (reservas d))
      as [fila Ef].
    { exists r. split; [exact Hin|]. now apply Z.eqb_eq. }
    unfold sql_first. rewrite Ef. reflexivity.
Qed.

(** C4 (amended): [handle_cancel_booking] answers "Reserva no encontrada o
    no autorizada" when no row has the identifier; when the requester owns
    the row, the request succeeds from every state, a cancelled or rejected
    one included, and the row's state becomes cancelled. *)
Theorem cancel_from_any_state d reserva_id user_id :
  reserva_id <> 0 ->
  ((forall r, In r (reservas d) -> id_reserva r <> reserva_id) ->
   handle_cancel_booking d reserva_id user_id
   = (d, Err ReservaNoEncontradaONoAutorizada))
  /\ (forall r, In r (reservas d) -> id_reserva r = reserva_id ->
                id_usuario r = Some user_id ->
      handle_cancel_booking d reserva_id user_id
      = (con_reservas d (poner_estado reserva_id Cancelada (reservas d))
           (reservas_seq d),
         Ok tt)
      /\ In (con_estado Cancelada r)
           (reservas (fst (handle_cancel_booking d reserva_id user_id)))).
Proof.
  intros Hr. unfold handle_cancel_booking. rewrite (truthy_ne _ Hr).
  cbn [negb]. split.
  - intros Hno. unfold sql_first. rewrite find_ninguno; [reflexivity|].
    intros r Hin. apply andb_false_iff. left. apply Z.eqb_neq. now apply Hno.
  - intros r Hin Hid Hown.
    destruct (find_existe
                (fun r => (id_reserva r =? reserva_id) && es_de user_id r)
                (reservas d)) as [fila Ef].
    { exists r. split; [exact Hin|]. unfold es_de.
      rewrite Hown, Hid, !Z.eqb_refl. reflexivity. }
    unfold sql_first. rewrite Ef. split; [reflexivity|].
    cbn [fst reservas con_reservas sql_update].
    apply in_map_iff. exists r. split; [|exact Hin].
    apply Z.eqb_eq in Hid. now rewrite Hid.
Qed.

(** Two rows with one identifier are the same row. *)
Lemma clave_unica d a b :
  claves_ok d -> In a (reservas d) -> In b (reservas d) ->
  id_reserva a = id_reserva b -> a = b.
Proof.
  intros [_ [Hnd _]]. revert Hnd. induction (reservas d) as [|x l IH]; cbn.
  - contradiction.
  - intros Hnd Ha Hb E. inversion Hnd as [|? ? Hx Hl]; subst.
    destruct Ha as [<- | Ha], Hb as [<- | Hb]; auto.
    + exfalso. apply Hx. rewrite E. now apply in_map.
    + exfalso. apply Hx. rewrite <- E. now apply in_map.
Qed.

(** C10: a cancellation succeeds only if a row with the given identifier
    exists and is owned by the given user; a cancellation that names an
    existing row of another owner is answered "Reserva no encontrada o no
    autorizada" and leaves the store as it is. *)
Theorem cancel_enforces_ownership d reserva_id user_id :
  (snd (handle_cancel_booking d reserva_id user_id) = Ok tt ->
   exists r, In r (reservas d) /\ id_reserva r = reserva_id
             /\ id_usuario r = Some user_id)
  /\ (claves_ok d ->
      forall r, In r (reservas d) -> id_reserva r = reserva_id ->
                id_usuario r <> Some user_id ->
      handle_cancel_booking d reserva_id user_id
      = (d, Err ReservaNoEncontradaONoAutorizada)).
Proof.
  unfold handle_cancel_booking. split.
  - destruct (negb (truthy reserva_id)); [discriminate|].
    unfold sql_first.
    destruct (find _ (reservas d)) as [r|] eqn:E; [|discriminate].
    intros _. apply find_some in E. destruct E as [Hin Hp].
    apply andb_true_iff in Hp. destruct Hp as [Hid Hown].
    exists r. split; [exact Hin|]. split; [now apply Z.eqb_eq|].
    unfold es_de in Hown. destruct (id_usuario r) as [u|]; [|discriminate].
    apply Z.eqb_eq in Hown. now subst.
  - intros Hk r Hin Hid Hown.
    assert (Hpos : 0 < id_reserva r).
    { destruct Hk as [_ [_ Hk]]. rewrite Forall_forall in Hk.
      apply (Hk r Hin). }
    rewrite truthy_ne by lia. cbn [negb].
    unfold sql_first. rewrite find_ninguno; [reflexivity|].
    intros x Hx. destruct (id_reserva x =? reserva_id) eqn:E; [|reflexivity].
    apply Z.eqb_eq in E.
    assert (x = r) by (apply (clave_unica d); auto; congruence). subst x.
    cbn [andb]. unfold es_de. destruct (id_usuario r) as [u|]; [|reflexivity].
    apply Z.eqb_neq. congruence.
Qed.

(** ** Resolving an incident *)

Lemma find_map_inv {A} (p : A -> bool) (f : A -> A) (l : list A) :
  (forall x, p (f x) = p x) ->
  find p (map f l) = option_map f (find p l).
Proof.
  intros H. induction l as [|x l IH]; [reflexivity|]. cbn.
  rewrite H. destruct (p x); [reflexivity|exact IH].
Qed.

Lemma filter_idem {A} (p : A -> bool) (l : list A) :
  filter p (filter p l) = filter p l.
Proof.
  induction l as [|x l IH]; [reflexivity|]. cbn.
  destruct (p x) eqn:E; cbn; [rewrite E|]; now rewrite ?IH.
Qed.

(** C6 (amended): [handle_resolve_incident] on an existing incident never
    fails: it deletes every block row of the incident's space and answers
    [espacio_liberado: true] in every case, also when there was no block to
    delete; a second call answers [true] again and changes no row. *)
Theorem resolve_always_reports_release d now incidencia_id solucion i :
  incidencia_id <> 0 ->
  sql_first (fun x => i_id x =? incidencia_id) (incidencias d) = Some i ->
  let r1 := handle_resolve_incident d now incidencia_id solucion in
  snd r1 = Ok true
  /\ reservas (fst r1) = sql_delete (es_bloqueo_de (i_espacio i)) (reservas d)
  /\ (forall r, In r (reservas (fst r1)) ->
                es_bloqueo_de (i_espacio i) r = false)
  /\ (forall now' solucion',
        let r2 := handle_resolve_incident (fst r1) now' incidencia_id
                    solucion' in
        snd r2 = Ok true /\ reservas (fst r2) = reservas (fst r1)).
Proof.
  intros Hid Hi r1.
  assert (E1 : r1 = (con_reservas
                       (con_incidencias d
                          (fst (sql_update (fun x => i_id x =? incidencia_id)
                                  (resolver solucion now) (incidencias d))))
                       (sql_delete (es_bloqueo_de (i_espacio i)) (reservas d))
                       (reservas_seq d), Ok true)).
  { unfold r1, handle_resolve_incident.
    rewrite (truthy_ne _ Hid), Hi. reflexivity. }
  rewrite E1. cbn [fst snd reservas con_reservas].
  split; [reflexivity|]. split; [reflexivity|]. split.
  - intros r Hr. unfold sql_delete in Hr. apply filter_In in Hr.
    now apply negb_true_iff.
  - intros now' solucion'. unfold handle_resolve_incident.
    rewrite (truthy_ne _ Hid).
    cbn [negb incidencias con_reservas con_incidencias sql_update fst].
    unfold sql_first in *.
    rewrite (find_map_inv (fun x => i_id x =? incidencia_id)
               (fun r => if i_id r =? incidencia_id
                         then resolver solucion now r else r)).
    2:{ intros x. destruct (i_id x =? incidencia_id) eqn:E; [|exact E].
        cbn. exact E. }
    rewrite Hi. cbn [option_map].
    assert (Es : i_espacio (if i_id i =? incidencia_id
                            then resolver solucion now i else i)
                 = i_espacio i)
      by (destruct (i_id i =? incidencia_id); reflexivity).
    rewrite Es. cbn [fst snd reservas con_reservas sql_delete].
    split; [reflexivity|]. apply filter_idem.
Qed.

(** ** Touching and overlapping requests *)

(** What a successful creation tells about the request and the store. *)
Lemma create_ok_inv d now user_id space_id ini fin texto d1 id1 :
  handle_create_booking d now user_id space_id (Fecha ini) (Fecha fin) texto
  = (d1, Ok id1) ->
  user_id <> 0 /\ space_id <> 0 /\ ini < fin
  /\ (exists u, In u (usuarios d) /\ u_id u = user_id /\ u_activo u = true)
  /\ (exists e, In e (espacios d) /\ e_id e = space_id /\ e_activo e = true)
  /\ ~ ocupado d space_id ini fin
  /\ d1 = con_reservas d
            (reservas d
             ++ [nueva_reserva (reservas_seq d + 1) user_id space_id ini fin
                   texto now])
            (reservas_seq d + 1).
Proof.
  unfold handle_create_booking, truthy. cbn [fecha_truthy].
  destruct (user_id =? 0) eqn:Eu; [discriminate|].
  destruct (space_id =? 0) eqn:Es; [discriminate|]. cbn [negb andb].
  destruct (fin <=? ini) eqn:Er; [discriminate|].
  unfold sql_first.
  destruct (find _ (usuarios d)) as [u|] eqn:Fu; [|discriminate].
  destruct (find _ (espacios d)) as [e|] eqn:Fe; [|discriminate].
  destruct (0 <? sql_count _ _)%nat eqn:Ec; [discriminate|].
  cbv zeta. intros H.
  apply Z.eqb_neq in Eu, Es. apply Z.leb_gt in Er.
  apply find_some in Fu, Fe. destruct Fu as [Hu Pu], Fe as [He Pe].
  apply andb_true_iff in Pu, Pe. destruct Pu as [Pu1 Pu2], Pe as [Pe1 Pe2].
  apply Z.eqb_eq in Pu1, Pe1.
  repeat split; auto.
  - exists u. auto.
  - exists e. auto.
  - intros Ho. apply ocupado_count in Ho. congruence.
  - destruct (mas_reciente _ _); injection H as <- _; reflexivity.
Qed.

Lemma mas_reciente_algo rows :
  forall best, (best <> None \/ rows <> []) ->
               exists r, mas_reciente best rows = Some r.
Proof.
  induction rows as [|x rows IH]; intros best H.
  - destruct best as [b|]; [exists b; reflexivity|]. destruct H as [H|H]; exfalso; apply H; reflexivity.
  - cbn. destruct best as [b|];
      [destruct (fecha_solicitud b <? fecha_solicitud x)|];
      apply IH; left; discriminate.
Qed.

(** A creation that passes the checks answers with an identifier. *)
Lemma create_libre d now user_id space_id ini fin texto :
  user_id <> 0 -> space_id <> 0 -> ini < fin ->
  (exists u, In u (usuarios d) /\ u_id u = user_id /\ u_activo u = true) ->
  (exists e, In e (espacios d) /\ e_id e = space_id /\ e_activo e = true) ->
  ~ ocupado d space_id ini fin ->
  exists id,
    handle_create_booking d now user_id space_id (Fecha ini) (Fecha fin) texto
    = (con_reservas d
         (reservas d
          ++ [nueva_reserva (reservas_seq d + 1) user_id space_id ini fin
                texto now])
         (reservas_seq d + 1), Ok id).
Proof.
  intros Hu Hs Hr Hus Hes Hno.
  rewrite (create_validado d now user_id space_id ini fin texto Hu Hs Hr
             Hus Hes).
  cbv zeta. rewrite <- ocupado_count in Hno.
  destruct (0 <? sql_count _ _)%nat; [now elim Hno|].
  destruct (mas_reciente_algo
              (filter (misma_reserva user_id space_id ini fin) (reservas d)
               ++ [nueva_reserva (reservas_seq d + 1) user_id space_id ini
                     fin texto now]) None) as [r Er].
  { right. intros E. apply app_eq_nil in E. destruct E; discriminate. }
  rewrite Er. eauto.
Qed.

(** And one that meets a conflict leaves the store as it is. *)
Lemma create_ocupado d now user_id space_id ini fin texto :
  user_id <> 0 -> space_id <> 0 -> ini < fin ->
  (exists u, In u (usuarios d) /\ u_id u = user_id /\ u_activo u = true) ->
  (exists e, In e (espacios d) /\ e_id e = space_id /\ e_activo e = true) ->
  ocupado d space_id ini fin ->
  handle_create_booking d now user_id space_id (Fecha ini) (Fecha fin) texto
  = (d, Err EspacioNoDisponible).
Proof.
  intros Hu Hs Hr Hus Hes Ho.
  rewrite (create_validado d now user_id space_id ini fin texto Hu Hs Hr
             Hus Hes).
  apply ocupado_count in Ho. now rewrite Ho.
Qed.

Lemma hora_pos : 0 < hora.
Proof. reflexivity. Qed.


(** ** The key of [reservas] *)

Lemma claves_snoc d r t :
  claves_ok d -> id_reserva r = reservas_seq d + 1 ->
  map id_reserva t = map id_reserva (reservas d) ->
  claves_ok (con_reservas d (t ++ [r]) (reservas_seq d + 1)).
Proof.
  intros [Hseq [Hnd Hr]] Hid Ht. unfold claves_ok.
  cbn [reservas reservas_seq con_reservas].
  assert (Hids : forall i, In i (map id_reserva t) -> 0 < i <= reservas_seq d).
  { intros i Hi. rewrite Ht in Hi. apply in_map_iff in Hi.
    destruct Hi as [x [<- Hx]]. rewrite Forall_forall in Hr. now apply Hr. }
  split; [lia|]. split.
  - rewrite map_app. cbn [map]. apply NoDup_app.
    + now rewrite Ht.
    + repeat constructor. auto.
    + intros i Hi [<- | []]. specialize (Hids _ Hi). lia.
  - apply Forall_app. split.
    + rewrite Forall_forall. intros x Hx.
      specialize (Hids _ (in_map id_reserva _ _ Hx)). lia.
    + repeat constructor; lia.
Qed.

Lemma claves_map d (f : reserva -> reserva) :
  (forall r, id_reserva (f r) = id_reserva r) ->
  claves_ok d ->
  claves_ok (con_reservas d (map f (reservas d)) (reservas_seq d)).
Proof.
  intros Hf [Hseq [Hnd Hr]]. unfold claves_ok.
  cbn [reservas reservas_seq con_reservas].
  split; [exact Hseq|]. split.
  - rewrite map_map. erewrite map_ext; [exact Hnd|]. exact Hf.
  - rewrite Forall_forall in *. intros y Hy. apply in_map_iff in Hy.
    destruct Hy as [x [<- Hx]]. rewrite Hf. now apply Hr.
Qed.

Lemma NoDup_map_filter {A B} (g : A -> B) (p : A -> bool) (l : list A) :
  NoDup (map g l) -> NoDup (map g (filter p l)).
Proof.
  induction l as [|x l IH]; cbn; intros H; [constructor|].
  inversion H as [|? ? Hx Hl]; subst.
  destruct (p x); cbn; [constructor|]; auto.
  intros Hin. apply Hx. apply in_map_iff in Hin.
  destruct Hin as [y [E Hy]]. apply filter_In in Hy.
  rewrite <- E. apply in_map, Hy.
Qed.

(** Every request keeps the key of [reservas]. *)
Lemma ejecutar_claves_ok d op : claves_ok d -> claves_ok (ejecutar d op).
Proof.
  intros Hk. destruct op; cbn [ejecutar].
  - unfold handle_create_booking. rechazos Hk;
      cbn [fst]; apply claves_snoc; auto.
  - unfold handle_approve_booking. rechazos Hk.
    cbn [fst sql_update]. apply claves_map; [|exact Hk].
    intros x. now destruct (id_reserva x =? reserva_id).
  - unfold handle_cancel_booking. rechazos Hk.
    cbn [fst sql_update]. apply claves_map; [|exact Hk].
    intros x. now destruct (id_reserva x =? reserva_id).
  - unfold handle_apply_block. rechazos Hk.
    cbn [fst sql_update]. apply claves_snoc; auto.
    rewrite map_map. apply map_ext. intros x.
    now destruct (en_conflicto _ _ _ x).
  - unfold handle_resolve_incident. rechazos Hk.
    cbn [fst]. destruct Hk as [Hseq [Hnd Hr]]. unfold claves_ok.
    cbn [reservas reservas_seq con_reservas con_incidencias sql_delete].
    split; [exact Hseq|]. split.
    + now apply NoDup_map_filter.
    + rewrite Forall_forall in *. intros x Hx. apply filter_In in Hx.
      now apply Hr.
Qed.

Lemma alcanzable_claves_ok guard d0 d :
  claves_ok d0 -> alcanzable guard d0 d -> claves_ok d.
Proof.
  intros H0. induction 1; [exact H0|]. now apply ejecutar_claves_ok.
Qed.

(** ** The calendar *)



(** Once the cursor is empty every later entry is free. *)
Lemma horarios_loop_vacio n :
  forall vueltas cur fin,
    (n < vueltas)%nat -> fin = cur + Z.of_nat n * hora ->
    horarios_loop vueltas [] cur fin
    = map (fun k => entrada (cur + Z.of_nat k * hora) None) (seq 0 n).
Proof.
  pose proof hora_pos as Hh.
  induction n as [|n IH]; intros vueltas cur fin Hv Hfin;
    (destruct vueltas as [|v]; [lia|]); cbn [horarios_loop].
  - replace (cur <? fin) with false by (symmetry; apply Z.ltb_ge; lia).
    reflexivity.
  - replace (cur <? fin) with true by (symmetry; apply Z.ltb_lt; lia).
    cbn [fetchall find seq map]. f_equal.
    + f_equal. lia.
    + rewrite (IH v (cur + hora) fin) by lia.
      rewrite <- seq_shift, map_map. apply map_ext. intros k. f_equal. lia.
Qed.

Lemma horarios_loop_paso v rows cur fin :
  cur < fin ->
  horarios_loop (S v) rows cur fin
  = entrada cur (find (cubre cur) rows)
      :: horarios_loop v [] (cur + hora) fin.
Proof.
  intros H. cbn [horarios_loop fetchall].
  apply Z.ltb_lt in H. now rewrite H.
Qed.

Lemma replace_hour_diff t :
  replace_hour 22 t = replace_hour 8 t + Z.of_nat 14 * hora.
Proof. unfold replace_hour. lia. Qed.

Lemma vueltas_dia t :
  S (Z.to_nat ((replace_hour 22 t - replace_hour 8 t) / hora)) = 15%nat.
Proof.
  rewrite replace_hour_diff.
  replace (replace_hour 8 t + Z.of_nat 14 * hora - replace_hour 8 t)
    with (14 * hora) by lia.
  rewrite Z.div_mul by discriminate. reflexivity.
Qed.

(** The answer of [handle_get_calendar] for an active space. *)
Lemma calendar_value d space_id t e :
  space_id <> 0 ->
  sql_first (fun e => (e_id e =? space_id) && e_activo e) (espacios d)
  = Some e ->
  let start := replace_hour 8 t in
  let rows := order_by_fecha_inicio
                (filter (del_dia space_id start (replace_hour 22 t))
                   (reservas d)) in
  handle_get_calendar d space_id (Fecha t)
  = Ok {| c_espacio := e_nombre e; c_fecha := t;
          c_horarios :=
            entrada start (find (cubre start) rows)
              :: map (fun k => entrada (start + hora + Z.of_nat k * hora) None)
                   (seq 0 13) |}.
Proof.
  intros Hs He start rows. unfold handle_get_calendar.
  rewrite (truthy_ne _ Hs), He. cbn [fecha_truthy andb negb].
  rewrite vueltas_dia. fold start. fold rows.
  pose proof hora_pos as Hh.
  rewrite horarios_loop_paso
    by (rewrite replace_hour_diff; fold start; lia).
  rewrite (horarios_loop_vacio 13)
    by (try lia; rewrite replace_hour_diff; fold start; lia).
  reflexivity.
Qed.




(** No entry after the first is ever marked as taken: the second
    [fetchall()] finds the cursor empty. *)
Lemma calendar_later_slots_free d space_id t cal h k :
  space_id <> 0 ->
  handle_get_calendar d space_id (Fecha t) = Ok cal ->
  nth_error (c_horarios cal) (S k) = Some h -> disponible h = true.
Proof.
  intros Hs Hc Hn. unfold handle_get_calendar in Hc.
  rewrite (truthy_ne _ Hs) in Hc. cbn [fecha_truthy andb negb] in Hc.
  destruct (sql_first _ (espacios d)) as [e|] eqn:Ee; [|discriminate].
  pose proof (calendar_value d space_id t e Hs Ee) as Hv. cbv zeta in Hv.
  unfold handle_get_calendar in Hv.
  rewrite (truthy_ne _ Hs), Ee in Hv. cbn [fecha_truthy andb negb] in Hv.
  rewrite Hv in Hc. injection Hc as <-. cbn [c_horarios nth_error] in Hn.
  apply nth_error_In in Hn. cbn in Hn.
  repeat (destruct Hn as [<- | Hn]; [reflexivity|]). contradiction.
Qed.

(** ** The examples, evaluated *)

Lemma alcanzable_fold guard d0 ops :
  (forall d op, guard d op) ->
  forall d, alcanzable guard d0 d ->
            alcanzable guard d0 (fold_left ejecutar ops d).
Proof.
  intros Hg. induction ops as [|op ops IH]; intros d Hd; [exact Hd|].
  cbn [fold_left]. apply IH. now apply alc_paso.
Qed.

Lemma alcanzable_tras ops : alcanzable sin_guardia tienda_vacia (tras ops).
Proof.
  apply alcanzable_fold; [intros d op; exact I|apply alc_inicio].
Qed.






Lemma decide_on_approved_succeeds :
  map estado (reservas tienda_aprobada) = [Aprobada]
  /\ snd (handle_approve_booking tienda_aprobada 1 (py "aprobada") 1) = Ok tt
  /\ map estado (reservas tienda_cancelada) = [Cancelada]
  /\ snd (handle_approve_booking tienda_cancelada 1 (py "aprobada") 1) = Ok tt
  /\ map estado
       (reservas
          (fst (handle_approve_booking tienda_cancelada 1 (py "aprobada") 1)))
     = [Aprobada].
Proof. repeat split; vm_compute; reflexivity. Qed.

Lemma decide_ignores_current_state_witness :
  handle_approve_booking tienda_aprobada 1 (py "rechazada") 1
  = (con_reservas tienda_aprobada
       (poner_estado 1 Rechazada (reservas tienda_aprobada))
       (reservas_seq tienda_aprobada),
     Ok tt).
Proof.
  refine (proj2 (decide_ignores_current_state tienda_aprobada 1
                   (py "rechazada") 1 Rechazada _ _ _ _) _).
  - discriminate.
  - discriminate.
  - now right.
  - reflexivity.
  - exists (con_estado Aprobada
              (nueva_reserva 1 2 1 (a_las 10) (a_las 12) reunion 100)).
    split; [vm_compute; now left|reflexivity].
Defined.

Lemma cancel_of_cancelled_succeeds :
  map estado (reservas tienda_cancelada) = [Cancelada]
  /\ handle_cancel_booking tienda_cancelada 1 2 = (tienda_cancelada, Ok tt).
Proof. split; vm_compute; reflexivity. Qed.

Lemma cancel_from_any_state_witness :
  handle_cancel_booking tienda_aprobada 1 2
  = (con_reservas tienda_aprobada
       (poner_estado 1 Cancelada (reservas tienda_aprobada))
       (reservas_seq tienda_aprobada),
     Ok tt).
Proof.
  refine (proj1 (proj2 (cancel_from_any_state tienda_aprobada 1 2 _)
                   (con_estado Aprobada
                      (nueva_reserva 1 2 1 (a_las 10) (a_las 12) reunion 100))
                   _ _ _)).
  - discriminate.
  - vm_compute. now left.
  - reflexivity.
  - reflexivity.
Defined.


Lemma resolve_reports_release_without_block :
  filter (es_bloqueo_de 1) (reservas tienda_vacia) = []
  /\ snd (handle_resolve_incident tienda_vacia 300 1 (py "reparado")) = Ok true
  /\ snd (handle_resolve_incident
            (fst (handle_resolve_incident tienda_bloqueada 300 1
                    (py "reparado")))
            400 1 (py "reparado")) = Ok true.
Proof. repeat split; vm_compute; reflexivity. Qed.

Lemma resolve_always_reports_release_witness :
  snd (handle_resolve_incident tienda_bloqueada 300 1 (py "reparado"))
  = Ok true.
Proof.
  refine (proj1 (resolve_always_reports_release tienda_bloqueada 300 1
                   (py "reparado")
                   {| i_id := 1; i_espacio := 1; i_estado := Abierta;
                      i_solucion := []; i_fecha_resolucion := None |} _ _)).
  - discriminate.
  - reflexivity.
Defined.



(** The booking of 10:00-11:00 is stored, and the entry of 10:00 says that
    the space is free. *)
Lemma calendar_ten_oclock_reported_free :
  existsb (fun r => (id_espacio r =? 1) && cubre (a_las 10) r
                    && del_dia 1 (a_las 8) (a_las 22) r)
    (reservas tienda_manana) = true
  /\ match handle_get_calendar tienda_manana 1 (Fecha 0) with
     | Ok cal =>
         option_map (fun h => (hora_inicio h, disponible h))
           (nth_error (c_horarios cal) 2)
         = Some (a_las 10, true)
     | Err _ => False
     end.
Proof. split; vm_compute; reflexivity. Qed.

Lemma cancel_enforces_ownership_witness :
  handle_cancel_booking tienda_pendiente 1 1
  = (tienda_pendiente, Err ReservaNoEncontradaONoAutorizada).
Proof.
  refine (proj2 (cancel_enforces_ownership tienda_pendiente 1 1) _
            (nueva_reserva 1 2 1 (a_las 10) (a_las 12) reunion 100) _ _ _).
  - apply (alcanzable_claves_ok sin_guardia tienda_vacia);
      [|apply alcanzable_tras].
    repeat split; [discriminate|constructor|constructor].
  - vm_compute. now left.
  - reflexivity.
  - discriminate.
Defined.

(** * Further properties of the services *)

(** ** More on the frame *)

Section MasSobreLaTrama.
Local Open Scope nat_scope.

Lemma slice_tras_len l rest :
  len l = 5 ->
  slice 5 10 (l ++ rest) = upto 5 rest
  /\ from 10 (l ++ rest) = from 5 rest.
Proof.
  intros Hl. unfold slice, from, upto, len in *. change (10 - 5) with 5.
  rewrite !skipn_app, Hl. change (5 - 5) with 0. change (10 - 5) with 5.
  rewrite skipn_all2 by lia. rewrite skipn_O.
  rewrite (skipn_all2 (n:=10)) by lia. split; reflexivity.
Qed.

(** X1: [parse_message] never reads the length field: two messages that
    differ only in their first five characters decode alike. *)
Theorem parse_message_ignores_len l1 l2 rest :
  len l1 = 5 -> len l2 = 5 ->
  parse_message (l1 ++ rest) = parse_message (l2 ++ rest).
Proof.
  intros H1 H2. unfold parse_message.
  destruct (slice_tras_len l1 rest H1) as [-> ->].
  destruct (slice_tras_len l2 rest H2) as [-> ->].
  rewrite !len_app, H1, H2. reflexivity.
Qed.

Lemma parse_message_ignores_len_witness :
  parse_message (py "00060" ++ py "book {}")
  = parse_message (py "00007" ++ py "book {}").
Proof.
  apply parse_message_ignores_len; reflexivity.
Defined.

(** X2: a message of exactly ten characters, which has no payload text,
    decodes to the empty dictionary under the stripped tag. *)
Theorem empty_payload_is_empty_dict message :
  len message = 10 ->
  parse_message message = inr (strip (from 5 message), JDict []).
Proof.
  intros H. unfold parse_message. rewrite H. cbn [Nat.ltb Nat.leb].
  assert (Hf : from 10 message = []).
  { unfold from. apply skipn_all2. unfold len in H. lia. }
  rewrite Hf. f_equal. f_equal. f_equal. unfold slice, from.
  change (10 - 5) with 5. apply firstn_all2. rewrite length_skipn.
  unfold len in H. lia.
Qed.

Lemma empty_payload_is_empty_dict_witness :
  parse_message (py "00005incid") = inr (strip (py "incid"), JDict []).
Proof.
  apply (empty_payload_is_empty_dict (py "00005incid")). reflexivity.
Defined.



(** X4: two different payloads never give the same frame, whatever the
    tags are (for payloads whose frames stay below 100000 characters). *)
Theorem distinct_payloads_give_distinct_frames tag1 tag2 data1 data2 :
  wf data1 = true -> wf data2 = true ->
  (Z.of_nat (5 + len (dumps data1)) < 100000)%Z ->
  (Z.of_nat (5 + len (dumps data2)) < 100000)%Z ->
  data1 <> data2 ->
  format_response tag1 data1 <> format_response tag2 data2.
Proof.
  intros W1 W2 L1 L2 N E. apply N.
  pose proof (parse_format tag1 data1 W1 L1) as P1.
  pose proof (parse_format tag2 data2 W2 L2) as P2.
  rewrite E in P1. rewrite P1 in P2. now injection P2.
Qed.

Lemma distinct_payloads_give_distinct_frames_witness :
  format_response (py "book") (JDict [(py "id", JInt 7)])
  <> format_response (py "book") (JDict [(py "id", JStr (py "7"))]).
Proof.
  apply distinct_payloads_give_distinct_frames;
    try reflexivity; discriminate.
Defined.


End MasSobreLaTrama.

(** ** Requests that are refused *)




(** ** What a successful creation tells *)




(** ** Identifiers *)

Lemma ejecutar_seq d op : reservas_seq d <= reservas_seq (ejecutar d op).
Proof.
  destruct op; cbn [ejecutar].
  - unfold handle_create_booking.
    rechazos (Z.le_refl (reservas_seq d)); cbn; lia.
  - unfold handle_approve_booking. rechazos (Z.le_refl (reservas_seq d)).
  - unfold handle_cancel_booking. rechazos (Z.le_refl (reservas_seq d)).
  - unfold handle_apply_block. rechazos (Z.le_refl (reservas_seq d)).
    cbn. lia.
  - unfold handle_resolve_incident. rechazos (Z.le_refl (reservas_seq d)).
Qed.

Lemma ejecutar_ids d op r :
  In r (reservas (ejecutar d op)) ->
  (exists r0, In r0 (reservas d) /\ id_reserva r0 = id_reserva r)
  \/ id_reserva r = reservas_seq d + 1.
Proof.
  assert (Hd : In r (reservas d) ->
               (exists r0, In r0 (reservas d) /\ id_reserva r0 = id_reserva r)
               \/ id_reserva r = reservas_seq d + 1) by (left; eauto).
  assert (Hmap : forall (p : reserva -> bool) e,
             In r (map (fun x => if p x then con_estado e x else x)
                     (reservas d)) ->
             exists r0, In r0 (reservas d) /\ id_reserva r0 = id_reserva r).
  { intros p e Hin. apply in_map_iff in Hin. destruct Hin as [x [<- Hx]].
    exists x. split; [exact Hx|]. now destruct (p x). }
  destruct op; cbn [ejecutar].
  - unfold handle_create_booking. rechazos Hd;
      cbn [fst reservas con_reservas]; intros Hin;
      (apply in_app_or in Hin; destruct Hin as [Hin|[<-|[]]];
       [left; eauto|right; reflexivity]).
  - unfold handle_approve_booking. rechazos Hd.
    cbn [fst sql_update reservas con_reservas]. intros Hin. left.
    exact (Hmap _ _ Hin).
  - unfold handle_cancel_booking. rechazos Hd.
    cbn [fst sql_update reservas con_reservas]. intros Hin. left.
    exact (Hmap _ _ Hin).
  - unfold handle_apply_block. rechazos Hd.
    cbn [fst sql_update reservas con_reservas]. intros Hin.
    apply in_app_or in Hin. destruct Hin as [Hin|[<-|[]]];
      [left; exact (Hmap _ _ Hin)|right; reflexivity].
  - unfold handle_resolve_incident. rechazos Hd.
    cbn [fst reservas con_reservas con_incidencias sql_delete]. intros Hin.
    apply filter_In in Hin. left. exists r. tauto.
Qed.

(** An identifier that has left the table, or that was never given, and that
    the sequence has passed, is never given again. *)
Lemma alcanzable_sin_reuso guard d0 d :
  alcanzable guard d0 d ->
  reservas_seq d0 <= reservas_seq d
  /\ forall r, In r (reservas d) -> id_reserva r <= reservas_seq d0 ->
               exists r0, In r0 (reservas d0) /\ id_reserva r0 = id_reserva r.
Proof.
  induction 1 as [|d op Hd [IH1 IH2] Hg].
  - split; [lia|]. eauto.
  - split; [pose proof (ejecutar_seq d op); lia|].
    intros r Hr Hle. destruct (ejecutar_ids d op r Hr) as [[r0 [H0 E]]|E].
    + rewrite <- E in *. apply IH2; assumption.
    + lia.
Qed.

(** X7: along any sequence of requests the identifiers of [reservas] stay
    distinct, positive and not above the sequence, and an identifier that
    the sequence has passed and that is not in the table (a deleted block)
    never appears again. *)
Theorem identifiers_unique_and_never_reused guard d1 d2 :
  claves_ok d1 -> alcanzable guard d1 d2 ->
  claves_ok d2
  /\ forall id, id <= reservas_seq d1 ->
                ~ In id (map id_reserva (reservas d1)) ->
                ~ In id (map id_reserva (reservas d2)).
Proof.
  intros Hk H12. split; [exact (alcanzable_claves_ok _ _ _ Hk H12)|].
  intros id Hid Hn Hin. apply in_map_iff in Hin.
  destruct Hin as [r [E Hr]].
  destruct (alcanzable_sin_reuso _ _ _ H12) as [_ H].
  destruct (H r Hr) as [r0 [H0 E0]]; [lia|].
  apply Hn. rewrite <- E, <- E0. now apply in_map.
Qed.

Lemma identifiers_unique_and_never_reused_witness :
  claves_ok (tras ops_bloqueo_y_resolucion)
  /\ forall id, id <= reservas_seq tienda_resuelta ->
                ~ In id (map id_reserva (reservas tienda_resuelta)) ->
                ~ In id (map id_reserva
                           (reservas (tras ops_bloqueo_y_resolucion))).
Proof.
  apply (identifiers_unique_and_never_reused sin_guardia tienda_resuelta
           (tras ops_bloqueo_y_resolucion)).
  - unfold claves_ok. vm_compute. split; [discriminate|].
    split; constructor.
  - change (tras ops_bloqueo_y_resolucion)
      with (ejecutar tienda_resuelta
              (OpCreate 300 2 1 (Fecha (a_las 10)) (Fecha (a_las 12)) reunion)).
    apply alc_paso; [|exact I]. apply alc_inicio.
Defined.

(** ** What a decision and a cancellation change *)

Lemma Forall2_map_der {A} (R : A -> A -> Prop) (f : A -> A) (l : list A) :
  (forall x, R x (f x)) -> Forall2 R l (map f l).
Proof. intros H. induction l; cbn; constructor; auto. Qed.

Lemma Forall2_mismo {A} (R : A -> A -> Prop) (l : list A) :
  (forall x, R x x) -> Forall2 R l l.
Proof. intros H. induction l; constructor; auto. Qed.

(** X8: a decision and a cancellation change nothing but the column
    [estado] of the row they name: the other tables, the sequence, the
    number and order of the rows, every other column and every other row
    stay. *)
Theorem decide_and_cancel_touch_only_estado d op reserva_id :
  objetivo op = Some reserva_id ->
  usuarios (ejecutar d op) = usuarios d
  /\ espacios (ejecutar d op) = espacios d
  /\ incidencias (ejecutar d op) = incidencias d
  /\ reservas_seq (ejecutar d op) = reservas_seq d
  /\ Forall2
       (fun r r' =>
          columnas_fijas r' = columnas_fijas r
          /\ (id_reserva r <> reserva_id -> r' = r))
       (reservas d) (reservas (ejecutar d op)).
Proof.
  intros Hop.
  assert (Hd : usuarios d = usuarios d /\ espacios d = espacios d
               /\ incidencias d = incidencias d
               /\ reservas_seq d = reservas_seq d
               /\ Forall2
                    (fun r r' =>
                       columnas_fijas r' = columnas_fijas r
                       /\ (id_reserva r <> reserva_id -> r' = r))
                    (reservas d) (reservas d)).
  { repeat split. apply Forall2_mismo. auto. }
  assert (Hm : forall e,
             Forall2
               (fun r r' =>
                  columnas_fijas r' = columnas_fijas r
                  /\ (id_reserva r <> reserva_id -> r' = r))
               (reservas d)
               (map (fun r => if id_reserva r =? reserva_id
                              then con_estado e r else r) (reservas d))).
  { intros e. apply Forall2_map_der. intros x.
    destruct (id_reserva x =? reserva_id) eqn:E.
    - split; [reflexivity|]. apply Z.eqb_eq in E. intros N. now elim N.
    - auto. }
  destruct op; try discriminate; injection Hop as ->; cbn [ejecutar].
  - unfold handle_approve_booking. rechazos Hd.
    cbn [fst sql_update]. repeat split. apply Hm.
  - unfold handle_cancel_booking. rechazos Hd.
    cbn [fst sql_update]. repeat split. apply Hm.
Qed.

Lemma decide_and_cancel_touch_only_estado_witness :
  usuarios (ejecutar tienda_manana (OpCancel 1 2)) = usuarios tienda_manana
  /\ espacios (ejecutar tienda_manana (OpCancel 1 2)) = espacios tienda_manana
  /\ incidencias (ejecutar tienda_manana (OpCancel 1 2))
     = incidencias tienda_manana
  /\ reservas_seq (ejecutar tienda_manana (OpCancel 1 2))
     = reservas_seq tienda_manana
  /\ Forall2
       (fun r r' =>
          columnas_fijas r' = columnas_fijas r
          /\ (id_reserva r <> 1 -> r' = r))
       (reservas tienda_manana)
       (reservas (ejecutar tienda_manana (OpCancel 1 2))).
Proof.
  apply decide_and_cancel_touch_only_estado. reflexivity.
Defined.

(** ** Occupancy under decisions and cancellations *)

Lemma ocupado_poner_estado d reserva_id e space_id ini fin :
  (forall r, In r (reservas d) -> id_reserva r = reserva_id ->
             pendiente_o_aprobada (con_estado e r) = true ->
             pendiente_o_aprobada r = true) ->
  ocupado (con_reservas d (poner_estado reserva_id e (reservas d))
             (reservas_seq d)) space_id ini fin ->
  ocupado d space_id ini fin.
Proof.
  intros He [r' [Hin [Hs [Hp [H1 H2]]]]].
  cbn [reservas con_reservas] in Hin. unfold poner_estado in Hin.
  apply in_map_iff in Hin. destruct Hin as [r [<- Hr]]. exists r.
  split; [exact Hr|].
  destruct (id_reserva r =? reserva_id) eqn:E; [|auto].
  apply Z.eqb_eq in E. cbn in Hs, H1, H2. auto using He.
Qed.

Lemma aprobar_es_poner d reserva_id nuevo admin_id :
  nuevo = Aprobada \/ nuevo = Rechazada ->
  ejecutar d (OpDecide reserva_id (texto_estado nuevo) admin_id) = d
  \/ ejecutar d (OpDecide reserva_id (texto_estado nuevo) admin_id)
     = con_reservas d (poner_estado reserva_id nuevo (reservas d))
         (reservas_seq d).
Proof.
  intros Hn. cbn [ejecutar]. unfold handle_approve_booking.
  destruct (valid_state_found nuevo Hn) as [-> _].
  destruct (negb _); [now left|].
  destruct (sql_first _ _); [|now left]. right. reflexivity.
Qed.

Lemma cancelar_es_poner d reserva_id user_id :
  ejecutar d (OpCancel reserva_id user_id) = d
  \/ ejecutar d (OpCancel reserva_id user_id)
     = con_reservas d (poner_estado reserva_id Cancelada (reservas d))
         (reservas_seq d).
Proof.
  cbn [ejecutar]. unfold handle_cancel_booking.
  destruct (negb _); [now left|].
  destruct (sql_first _ _); [|now left]. right. reflexivity.
Qed.

(** X9: approving a row that is pending or approved changes no answer of
    the conflict query: every interval of every space is occupied after the
    request exactly when it was before. *)
Theorem approval_keeps_occupancy d reserva_id admin_id space_id ini fin :
  decide_sobre_vigente d (OpDecide reserva_id (py "aprobada") admin_id) ->
  ocupado (ejecutar d (OpDecide reserva_id (py "aprobada") admin_id))
    space_id ini fin
  <-> ocupado d space_id ini fin.
Proof.
  intros Hv. cbn [decide_sobre_vigente] in Hv.
  destruct (aprobar_es_poner d reserva_id Aprobada admin_id (or_introl eq_refl))
    as [E|E]; change (texto_estado Aprobada) with (py "aprobada") in E;
    rewrite E; [tauto|].
  split.
  - apply ocupado_poner_estado. intros r Hr Hid _. now apply Hv.
  - intros [r [Hr [Hs [Hp [H1 H2]]]]].
    exists (if id_reserva r =? reserva_id then con_estado Aprobada r else r).
    split.
    + cbn [reservas con_reservas]. unfold poner_estado.
      apply (in_map (fun r => if id_reserva r =? reserva_id
                              then con_estado Aprobada r else r)). exact Hr.
    + destruct (id_reserva r =? reserva_id); cbn; auto.
Qed.

Lemma approval_keeps_occupancy_witness :
  ocupado (ejecutar tienda_pendiente (OpDecide 1 (py "aprobada") 1))
    1 (a_las 11) (a_las 13)
  <-> ocupado tienda_pendiente 1 (a_las 11) (a_las 13).
Proof.
  apply approval_keeps_occupancy.
  intros r [<-|[]] _. reflexivity.
Defined.

(** ** A withdrawn reservation frees its hours *)

(** The identifier that a creation answers with is the one of the row it
    has just written, when the request is later than the stored ones. *)
Lemma create_id_nuevo d now user_id space_id ini fin texto d1 id1 :
  (forall r, In r (reservas d) -> fecha_solicitud r < now) ->
  handle_create_booking d now user_id space_id (Fecha ini) (Fecha fin) texto
  = (d1, Ok id1) ->
  id1 = reservas_seq d + 1.
Proof.
  intros Hnow H.
  destruct (create_ok_inv _ _ _ _ _ _ _ _ _ H)
    as [Hu [Hs [Hr [Hus [Hes [Hno Hd1]]]]]].
  rewrite (create_validado d now user_id space_id ini fin texto Hu Hs Hr
             Hus Hes) in H.
  cbv zeta in H. destruct (0 <? _)%nat; [discriminate|].
  rewrite mas_reciente_snoc in H.
  - now injection H as _ <-.
  - intros r Hin. apply filter_In in Hin. cbn. apply Hnow, Hin.
  - exact I.
Qed.

Lemma libre_tras_retirar d nueva e space_id ini fin :
  claves_ok d -> id_reserva nueva = reservas_seq d + 1 ->
  pendiente_o_aprobada (con_estado e nueva) = false ->
  ~ ocupado d space_id ini fin ->
  ~ ocupado
      (con_reservas d
         (poner_estado (reservas_seq d + 1) e (reservas d ++ [nueva]))
         (reservas_seq d + 1))
      space_id ini fin.
Proof.
  intros [Hseq [Hnd Hids]] Hid He Hno [r' [Hin [Hs [Hp [H1 H2]]]]].
  cbn [reservas con_reservas] in Hin. unfold poner_estado in Hin.
  apply in_map_iff in Hin. destruct Hin as [r [<- Hr]].
  apply in_app_or in Hr. destruct Hr as [Hr|[<-|[]]].
  - rewrite Forall_forall in Hids. specialize (Hids r Hr).
    replace (id_reserva r =? reservas_seq d + 1) with false in *
      by (symmetry; apply Z.eqb_neq; lia).
    apply Hno. exists r. auto.
  - rewrite Hid, Z.eqb_refl in Hp. congruence.
Qed.

(** X10: after a creation has succeeded, its cancellation by the owner, or
    its rejection, succeeds, and the same hours can then be booked again. *)
Theorem withdrawn_booking_frees_the_slot
  d now1 now2 user_id space_id ini fin texto d1 id1 admin_id op :
  claves_ok d ->
  (forall r, In r (reservas d) -> fecha_solicitud r < now1) ->
  handle_create_booking d now1 user_id space_id (Fecha ini) (Fecha fin) texto
  = (d1, Ok id1) ->
  admin_id <> 0 ->
  op = OpCancel id1 user_id \/ op = OpDecide id1 (py "rechazada") admin_id ->
  respuesta_error d1 op = false
  /\ exists id2,
       snd (handle_create_booking (ejecutar d1 op) now2 user_id space_id
              (Fecha ini) (Fecha fin) texto) = Ok id2.
Proof.
  intros Hk Hnow H Ha Hop.
  pose proof (create_id_nuevo _ _ _ _ _ _ _ _ _ Hnow H) as Hid.
  destruct (create_ok_inv _ _ _ _ _ _ _ _ _ H)
    as [Hu [Hs [Hr [Hus [Hes [Hno Hd1]]]]]].
  set (nueva := nueva_reserva (reservas_seq d + 1) user_id space_id ini fin
                  texto now1) in *.
  assert (Hpos : id1 <> 0) by (destruct Hk as [Hseq _]; lia).
  assert (Hfind : forall p : reserva -> bool,
             p nueva = true -> exists y, find p (reservas d1) = Some y).
  { intros p Hp. apply find_existe. exists nueva. split; [|exact Hp].
    rewrite Hd1. cbn [reservas con_reservas]. apply in_or_app. right.
    now left. }
  assert (E : exists e,
             pendiente_o_aprobada (con_estado e nueva) = false
             /\ respuesta_error d1 op = false
             /\ ejecutar d1 op
                = con_reservas d1 (poner_estado id1 e (reservas d1))
                    (reservas_seq d1)).
  { destruct Hop as [-> | ->].
    - exists Cancelada. split; [reflexivity|].
      cbn [respuesta_error ejecutar]. unfold handle_cancel_booking.
      rewrite (truthy_ne _ Hpos). cbn [negb]. unfold sql_first.
      destruct (Hfind (fun r => (id_reserva r =? id1) && es_de user_id r))
        as [y ->].
      { unfold es_de. cbn. rewrite Hid, !Z.eqb_refl. reflexivity. }
      split; reflexivity.
    - exists Rechazada. split; [reflexivity|].
      cbn [respuesta_error ejecutar]. unfold handle_approve_booking.
      rewrite (truthy_ne _ Hpos), (truthy_ne _ Ha).
      change (py "rechazada") with (texto_estado Rechazada).
      destruct (valid_state_found Rechazada (or_intror eq_refl)) as [-> ->].
      cbn [negb andb]. unfold sql_first.
      destruct (Hfind (fun r => id_reserva r =? id1)) as [y ->].
      { cbn. rewrite Hid, Z.eqb_refl. reflexivity. }
      split; reflexivity. }
  destruct E as [e [He [Herr Hej]]]. split; [exact Herr|].
  rewrite Hej.
  destruct (create_libre
              (con_reservas d1 (poner_estado id1 e (reservas d1))
                 (reservas_seq d1))
              now2 user_id space_id ini fin texto Hu Hs Hr)
    as [id2 E2].
  - rewrite Hd1. exact Hus.
  - rewrite Hd1. exact Hes.
  - rewrite Hd1, Hid. cbn [reservas reservas_seq con_reservas].
    intros Ho. apply (libre_tras_retirar d nueva e space_id ini fin Hk
                        eq_refl He Hno).
    destruct Ho as [r Hr']. exists r. exact Hr'.
  - exists id2. now rewrite E2.
Qed.

Lemma withdrawn_booking_frees_the_slot_witness :
  respuesta_error tienda_pendiente (OpCancel 1 2) = false
  /\ exists id2,
       snd (handle_create_booking (ejecutar tienda_pendiente (OpCancel 1 2))
              200 2 1 (Fecha (a_las 10)) (Fecha (a_las 12)) reunion)
       = Ok id2.
Proof.
  apply (withdrawn_booking_frees_the_slot tienda_vacia 100 200 2 1
           (a_las 10) (a_las 12) reunion tienda_pendiente 1 1
           (OpCancel 1 2)).
  - unfold claves_ok. vm_compute. split; [discriminate|]. split; constructor.
  - intros r [].
  - vm_compute. reflexivity.
  - discriminate.
  - left. reflexivity.
Defined.

(** ** Blocks *)

Lemma apply_block_valor d now incidencia_id ini fin i :
  incidencia_id <> 0 -> ini < fin ->
  sql_first (fun x => i_id x =? incidencia_id) (incidencias d) = Some i ->
  handle_apply_block d now incidencia_id (Fecha ini) (Fecha fin)
  = (con_reservas d
       (cancelar_afectadas (i_espacio i) ini fin (reservas d)
        ++ [nuevo_bloqueo (reservas_seq d + 1) (i_espacio i) ini fin now
              incidencia_id])
       (reservas_seq d + 1),
     Ok (sql_count (en_conflicto (i_espacio i) ini fin) (reservas d))).
Proof.
  intros Hid Hr Hi. unfold handle_apply_block.
  rewrite (truthy_ne _ Hid), Hi. cbn [fecha_truthy andb negb].
  replace (fin <=? ini) with false by (symmetry; apply Z.leb_gt; lia).
  reflexivity.
Qed.






(** ** Resolving after a block *)

Lemma resolve_valor d now incidencia_id solucion i :
  incidencia_id <> 0 ->
  sql_first (fun x => i_id x =? incidencia_id) (incidencias d) = Some i ->
  handle_resolve_incident d now incidencia_id solucion
  = (con_reservas
       (con_incidencias d
          (map (fun x => if i_id x =? incidencia_id
                         then resolver solucion now x else x)
             (incidencias d)))
       (sql_delete (es_bloqueo_de (i_espacio i)) (reservas d))
       (reservas_seq d), Ok true).
Proof.
  intros Hid Hi. unfold handle_resolve_incident.
  rewrite (truthy_ne _ Hid), Hi. reflexivity.
Qed.



(** X16: [handle_resolve_incident] marks exactly the named incident as
    resolved, with the given solution and the time of the request; the other
    incidents, the users, the spaces, the sequence, and every row that is
    not a block of the incident's space stay. *)
Theorem resolve_records_the_solution d now incidencia_id solucion i :
  incidencia_id <> 0 ->
  sql_first (fun x => i_id x =? incidencia_id) (incidencias d) = Some i ->
  let d' := ejecutar d (OpResolve now incidencia_id solucion) in
  usuarios d' = usuarios d /\ espacios d' = espacios d
  /\ reservas_seq d' = reservas_seq d
  /\ Forall2
       (fun x x' =>
          i_id x' = i_id x /\ i_espacio x' = i_espacio x
          /\ (i_id x = incidencia_id ->
              i_estado x' = Resuelta /\ i_solucion x' = solucion
              /\ i_fecha_resolucion x' = Some now)
          /\ (i_id x <> incidencia_id -> x' = x))
       (incidencias d) (incidencias d')
  /\ (forall r, In r (reservas d) ->
        estado r <> Bloqueo \/ id_espacio r <> i_espacio i ->
        In r (reservas d')).
Proof.
  intros Hid Hi d'. unfold d'. cbn [ejecutar].
  rewrite (resolve_valor d now incidencia_id solucion i Hid Hi).
  cbn [fst usuarios espacios incidencias reservas reservas_seq con_reservas
       con_incidencias].
  repeat (split; [reflexivity|]). split.
  - apply Forall2_map_der. intros x.
    destruct (i_id x =? incidencia_id) eqn:E.
    + apply Z.eqb_eq in E. cbn. split; [reflexivity|]. split; [reflexivity|].
      split; [auto|]. intros N. now elim N.
    + apply Z.eqb_neq in E. split; [reflexivity|]. split; [reflexivity|].
      split; [|reflexivity]. intros N. now elim E.
  - intros r Hin Hno. unfold sql_delete. apply filter_In. split; [exact Hin|].
    unfold es_bloqueo_de. apply negb_true_iff.
    destruct Hno as [Hno|Hno].
    + destruct (estado r); try (now rewrite andb_false_r). now elim Hno.
    + apply Z.eqb_neq in Hno. now rewrite Hno.
Qed.

Lemma resolve_records_the_solution_witness :
  let d' := ejecutar tienda_bloqueada (OpResolve 200 1 (py "Reparado")) in
  usuarios d' = usuarios tienda_bloqueada
  /\ espacios d' = espacios tienda_bloqueada
  /\ reservas_seq d' = reservas_seq tienda_bloqueada
  /\ Forall2
       (fun x x' =>
          i_id x' = i_id x /\ i_espacio x' = i_espacio x
          /\ (i_id x = 1 ->
              i_estado x' = Resuelta /\ i_solucion x' = py "Reparado"
              /\ i_fecha_resolucion x' = Some 200)
          /\ (i_id x <> 1 -> x' = x))
       (incidencias tienda_bloqueada) (incidencias d')
  /\ (forall r, In r (reservas tienda_bloqueada) ->
        estado r <> Bloqueo \/ id_espacio r <> 1 ->
        In r (reservas d')).
Proof.
  apply (resolve_records_the_solution tienda_bloqueada 200 1 (py "Reparado")
           {| i_id := 1; i_espacio := 1; i_estado := Abierta;
              i_solucion := []; i_fecha_resolucion := None |}).
  - discriminate.
  - reflexivity.
Defined.

(** ** Who may decide *)



(** ** Blocks after the incident is resolved *)

(** X17: [handle_apply_block] does not look at the state of the incident: a
    block can be applied for an incident that has already been resolved. *)
Theorem resolved_incident_can_still_block
  d now now2 incidencia_id solucion i ini fin :
  incidencia_id <> 0 ->
  sql_first (fun x => i_id x =? incidencia_id) (incidencias d) = Some i ->
  ini < fin ->
  let d1 := ejecutar d (OpResolve now incidencia_id solucion) in
  let r2 := handle_apply_block d1 now2 incidencia_id (Fecha ini) (Fecha fin) in
  es_error (snd r2) = false
  /\ exists b, In b (reservas (fst r2))
               /\ es_bloqueo_de (i_espacio i) b = true
               /\ fecha_inicio b = ini /\ fecha_fin b = fin.
Proof.
  intros Hid Hi Hr d1 r2. unfold r2, d1. cbn [ejecutar].
  rewrite (resolve_valor d now incidencia_id solucion i Hid Hi). cbn [fst].
  erewrite apply_block_valor with (i := resolver solucion now i);
    [|exact Hid|exact Hr|].
  - cbn [fst snd es_error reservas con_reservas]. split; [reflexivity|].
    eexists. split; [apply in_or_app; right; left; reflexivity|].
    unfold es_bloqueo_de. cbn. rewrite Z.eqb_refl. auto.
  - cbn [incidencias con_reservas con_incidencias]. unfold sql_first in *.
    rewrite find_map_inv.
    + rewrite Hi. cbn [option_map].
      apply find_some in Hi. destruct Hi as [_ ->]. reflexivity.
    + intros x. cbn beta. destruct (i_id x =? incidencia_id) eqn:E;
        cbn [i_id resolver]; now rewrite E.
Qed.

Lemma resolved_incident_can_still_block_witness :
  let d1 := ejecutar tienda_vacia (OpResolve 100 1 (py "Reparado")) in
  let r2 := handle_apply_block d1 200 1 (Fecha (a_las 10))
              (Fecha (a_las 12)) in
  es_error (snd r2) = false
  /\ exists b, In b (reservas (fst r2))
               /\ es_bloqueo_de 1 b = true
               /\ fecha_inicio b = a_las 10 /\ fecha_fin b = a_las 12.
Proof.
  apply (resolved_incident_can_still_block tienda_vacia 100 200 1
           (py "Reparado")
           {| i_id := 1; i_espacio := 1; i_estado := Abierta;
              i_solucion := []; i_fecha_resolucion := None |}
           (a_las 10) (a_las 12)).
  - discriminate.
  - reflexivity.
  - reflexivity.
Defined.

(** ** The states of a row *)

Lemma ejecutar_pendiente d op r :
  In r (reservas (ejecutar d op)) -> estado r = Pendiente ->
  In r (reservas d) \/ id_reserva r = reservas_seq d + 1.
Proof.
  assert (Hd : In r (reservas d) -> estado r = Pendiente ->
               In r (reservas d) \/ id_reserva r = reservas_seq d + 1)
    by auto.
  assert (Hmap : forall (p : reserva -> bool) e,
             e <> Pendiente ->
             In r (map (fun x => if p x then con_estado e x else x)
                     (reservas d)) ->
             estado r = Pendiente -> In r (reservas d)).
  { intros p e He Hin Hp. apply in_map_iff in Hin.
    destruct Hin as [x [<- Hx]].
    destruct (p x); [cbn in Hp; congruence|exact Hx]. }
  destruct op; cbn [ejecutar].
  - unfold handle_create_booking. rechazos Hd;
      cbn [fst reservas con_reservas]; intros Hin Hp;
      (apply in_app_or in Hin; destruct Hin as [Hin|[<-|[]]];
       [now left|right; reflexivity]).
  - unfold handle_approve_booking.
    destruct (negb _); [exact Hd|].
    destruct (find _ valid_states) as [nuevo|] eqn:En; [|exact Hd].
    destruct (sql_first _ _); [|exact Hd].
    cbn [fst sql_update reservas con_reservas]. intros Hin Hp. left.
    refine (Hmap _ nuevo _ Hin Hp).
    apply find_some in En. destruct En as [[<-|[<-|[]]] _]; discriminate.
  - unfold handle_cancel_booking. rechazos Hd.
    cbn [fst sql_update reservas con_reservas]. intros Hin Hp. left.
    refine (Hmap _ Cancelada _ Hin Hp). discriminate.
  - unfold handle_apply_block. rechazos Hd.
    cbn [fst sql_update reservas con_reservas]. intros Hin Hp.
    apply in_app_or in Hin. destruct Hin as [Hin|[<-|[]]].
    + left. refine (Hmap _ Cancelada _ Hin Hp). discriminate.
    + discriminate Hp.
  - unfold handle_resolve_incident. rechazos Hd.
    cbn [fst reservas con_reservas con_incidencias sql_delete]. intros Hin Hp.
    apply filter_In in Hin. left. tauto.
Qed.

(** X12: no request ever sets a row to [pendiente]: a pending row that a
    sequence of requests ends with, and that was not created during the
    sequence, was in the table, pending and equal in every column, when the
    sequence began. *)
Theorem pending_is_only_the_first_state guard d1 d2 r :
  alcanzable guard d1 d2 ->
  In r (reservas d2) -> estado r = Pendiente ->
  id_reserva r <= reservas_seq d1 ->
  In r (reservas d1).
Proof.
  induction 1 as [|d op Hd IH Hg]; intros Hin Hp Hle; [exact Hin|].
  destruct (ejecutar_pendiente d op r Hin Hp) as [H|H]; [auto|].
  destruct (alcanzable_sin_reuso _ _ _ Hd) as [Hseq _]. lia.
Qed.

Lemma pending_is_only_the_first_state_witness :
  In (nueva_reserva 2 2 1 (a_las 10) (a_las 11) reunion 200)
    (reservas tienda_manana).
Proof.
  apply (pending_is_only_the_first_state sin_guardia tienda_manana
           (ejecutar (ejecutar tienda_manana (OpCancel 1 2))
              (OpDecide 1 (py "aprobada") 1))).
  - do 2 (apply alc_paso; [|exact I]). apply alc_inicio.
  - vm_compute. auto.
  - reflexivity.
  - vm_compute. discriminate.
Defined.

(** ** A block that has been decided on *)

(** X18: [handle_approve_booking] accepts the identifier of a block row; the
    row then no longer has [estado = 'bloqueo'], so resolving an incident
    does not delete it. *)
Theorem decided_block_survives_resolution
  d b admin_id nuevo now incidencia_id solucion :
  In b (reservas d) -> estado b = Bloqueo ->
  id_reserva b <> 0 -> admin_id <> 0 ->
  nuevo = Aprobada \/ nuevo = Rechazada ->
  let d1 :=
    ejecutar d (OpDecide (id_reserva b) (texto_estado nuevo) admin_id) in
  let d2 := ejecutar d1 (OpResolve now incidencia_id solucion) in
  respuesta_error d (OpDecide (id_reserva b) (texto_estado nuevo) admin_id)
  = false
  /\ In (con_estado nuevo b) (reservas d2).
Proof.
  intros Hin Hb Hid Ha Hn d1 d2.
  assert (E : handle_approve_booking d (id_reserva b) (texto_estado nuevo)
                admin_id
              = (con_reservas d
                   (poner_estado (id_reserva b) nuevo (reservas d))
                   (reservas_seq d), Ok tt)).
  { unfold handle_approve_booking.
    rewrite (truthy_ne _ Hid), (truthy_ne _ Ha).
    destruct (valid_state_found nuevo Hn) as [-> ->]. cbn [negb andb].
    unfold sql_first.
    destruct (find_existe (fun r => id_reserva r =? id_reserva b)
                (reservas d)) as [y ->]; [|reflexivity].
    exists b. split; [exact Hin|apply Z.eqb_refl]. }
  split.
  - cbn [respuesta_error]. rewrite E. reflexivity.
  - assert (H1 : In (con_estado nuevo b) (reservas d1)).
    { unfold d1. cbn [ejecutar]. rewrite E. cbn [fst reservas con_reservas].
      unfold poner_estado. apply in_map_iff. exists b.
      now rewrite Z.eqb_refl. }
    unfold d2. cbn [ejecutar]. unfold handle_resolve_incident.
    destruct (negb _); [exact H1|].
    destruct (sql_first _ _); [|exact H1].
    cbn [fst reservas con_reservas con_incidencias]. unfold sql_delete.
    apply filter_In. split; [exact H1|].
    unfold es_bloqueo_de. cbn [estado con_estado].
    destruct Hn as [-> | ->]; cbn; now rewrite andb_false_r.
Qed.

Lemma decided_block_survives_resolution_witness :
  let b := nuevo_bloqueo 1 1 (a_las 10) (a_las 12) 100 1 in
  let d1 := ejecutar tienda_bloqueada
              (OpDecide (id_reserva b) (texto_estado Aprobada) 1) in
  let d2 := ejecutar d1 (OpResolve 300 1 (py "Reparado")) in
  respuesta_error tienda_bloqueada
    (OpDecide (id_reserva b) (texto_estado Aprobada) 1) = false
  /\ In (con_estado Aprobada b) (reservas d2).
Proof.
  apply (decided_block_survives_resolution tienda_bloqueada
           (nuevo_bloqueo 1 1 (a_las 10) (a_las 12) 100 1) 1 Aprobada 300 1
           (py "Reparado")).
  - left. reflexivity.
  - reflexivity.
  - discriminate.
  - discriminate.
  - left. reflexivity.
Defined.

(** ** Which spaces are free *)

(** The window that an availability request asks about. *)
Lemma check_availability_valor cols d fecha hora_txt duracion tipo_espacio l :
  handle_check_availability cols d fecha hora_txt duracion tipo_espacio
  = inr l ->
  exists start horas,
    inicio_consulta fecha hora_txt = Some start
    /\ (duracion = Duracion horas \/ (duracion = DuracionAusente /\ horas = 1))
    /\ l = map (consultar cols d start (start + horas * hora))
             (filter (espacio_pedido cols tipo_espacio) (espacios d)).
Proof.
  unfold handle_check_availability.
  destruct (negb _); [discriminate|].
  destruct (inicio_consulta fecha hora_txt) as [start|]; [|discriminate].
  destruct duracion as [|horas| |]; try discriminate; intros H;
    injection H as <-.
  - exists start, 1. auto.
  - exists start, horas. auto.
Qed.

Lemma consultar_disponible cols d start fin e :
  a_disponible (consultar cols d start fin e) = true
  <-> ~ ocupado d (e_id e) start fin.
Proof.
  unfold consultar. cbn [a_disponible]. rewrite <- ocupado_count.
  unfold sql_count. destruct (filter _ _); cbn; split; intros H;
    try reflexivity; try discriminate.
  now elim H.
Qed.

(** X19: [handle_check_availability] and [handle_create_booking] agree: a
    space that is reported available for a window of a positive number of
    hours can be booked for that window by any active user, and one that is
    reported unavailable cannot ("El espacio no está disponible en ese
    horario"). *)
Theorem availability_agrees_with_creation
  cols d fecha hora_txt duracion tipo_espacio l a now user_id texto :
  handle_check_availability cols d fecha hora_txt duracion tipo_espacio
  = inr l ->
  In a l ->
  user_id <> 0 -> a_id a <> 0 ->
  (exists u, In u (usuarios d) /\ u_id u = user_id /\ u_activo u = true) ->
  exists start horas,
    inicio_consulta fecha hora_txt = Some start
    /\ (duracion = Duracion horas \/ (duracion = DuracionAusente /\ horas = 1))
    /\ (0 < horas ->
        let crear :=
          handle_create_booking d now user_id (a_id a) (Fecha start)
            (Fecha (start + horas * hora)) texto in
        if a_disponible a
        then exists id, snd crear = Ok id
        else crear = (d, Err EspacioNoDisponible)).
Proof.
  intros H Hin Hu Hs Hus.
  destruct (check_availability_valor _ _ _ _ _ _ _ H)
    as [start [horas [Hst [Hdur ->]]]].
  exists start, horas. split; [exact Hst|]. split; [exact Hdur|].
  intros Hh crear. apply in_map_iff in Hin. destruct Hin as [e [<- He]].
  apply filter_In in He. destruct He as [He Hp].
  unfold espacio_pedido in Hp. apply andb_true_iff in Hp.
  destruct Hp as [Hact _].
  assert (Hr : start < start + horas * hora)
    by (pose proof hora_pos; nia).
  assert (Hes : exists e', In e' (espacios d) /\ e_id e' = e_id e
                           /\ e_activo e' = true) by eauto.
  cbn [a_id consultar] in Hs.
  destruct (a_disponible _) eqn:Ed.
  - apply consultar_disponible in Ed. unfold crear. cbn [a_id consultar].
    destruct (create_libre d now user_id (e_id e) start
                (start + horas * hora) texto Hu Hs Hr Hus Hes Ed)
      as [id E].
    exists id. now rewrite E.
  - unfold crear. cbn [a_id consultar].
    apply create_ocupado; auto.
    destruct (ocupado_count d (e_id e) start (start + horas * hora))
      as [Ho _]. apply Ho.
    unfold consultar in Ed. cbn [a_disponible] in Ed.
    destruct (sql_count _ _); [discriminate|reflexivity].
Qed.

Lemma availability_agrees_with_creation_witness :
  exists start horas,
    inicio_consulta (Fecha 0) (HoraDada (Some (a_las 10))) = Some start
    /\ (Duracion 2 = Duracion horas
        \/ (Duracion 2 = DuracionAusente /\ horas = 1))
    /\ (0 < horas ->
        let crear :=
          handle_create_booking tienda_manana 300 2
            (a_id (consultar columnas_sala tienda_manana (a_las 10)
                     (a_las 12) sala_a101))
            (Fecha start) (Fecha (start + horas * hora)) reunion in
        if a_disponible (consultar columnas_sala tienda_manana (a_las 10)
                           (a_las 12) sala_a101)
        then exists id, snd crear = Ok id
        else crear = (tienda_manana, Err EspacioNoDisponible)).
Proof.
  apply (availability_agrees_with_creation columnas_sala tienda_manana
           (Fecha 0) (HoraDada (Some (a_las 10))) (Duracion 2) (py "sala")
           [consultar columnas_sala tienda_manana (a_las 10) (a_las 12)
              sala_a101]).
  - reflexivity.
  - left. reflexivity.
  - discriminate.
  - discriminate.
  - exists {| u_id := 2; u_activo := true |}. cbn. auto.
Defined.



(** ** The calendar after its first hour *)



(** ** The reservations of a user *)









(** ** The routers *)

Lemma pystr_eqb_refl (s : pystr) : PyStr.eqb s s = true.
Proof. now apply eqb_eq. Qed.

Lemma pystr_eqb_neq (a b : pystr) : a <> b -> PyStr.eqb a b = false.
Proof.
  intros H. destruct (PyStr.eqb a b) eqn:E; [|reflexivity].
  apply eqb_eq in E. now elim H.
Qed.



(** X24: a well-formed frame whose tag is not the service's own is answered
    with [{"error": "Servicio incorrecto"}] under the service's tag,
    whatever the payload holds, and the store is not touched. *)
Theorem frame_for_another_service_is_refused
  tag str_excepcion ramas d message service_code data :
  In tag [py "book"; py "incid"; py "avail"] ->
  parse_message message = inr (service_code, data) ->
  service_code <> tag ->
  fst (responder tag str_excepcion ramas d message) = d
  /\ parse_message (snd (responder tag str_excepcion ramas d message))
     = inr (tag, error_dict (py "Servicio incorrecto")).
Proof.
  intros Ht He Hn. unfold responder. rewrite He.
  rewrite (pystr_eqb_neq _ _ Hn). cbn [negb fst snd]. split; [reflexivity|].
  cbn [In] in Ht;
    repeat (destruct Ht as [<- | Ht]; [vm_compute; reflexivity|]);
    contradiction.
Qed.

Lemma frame_for_another_service_is_refused_witness :
  fst (process_message_book sin_texto (eco "create") (eco "approve")
         (eco "list") (eco "cancel") tienda_pendiente
         (format_response (py "incid") (JDict [])))
  = tienda_pendiente
  /\ parse_message
       (snd (process_message_book sin_texto (eco "create") (eco "approve")
               (eco "list") (eco "cancel") tienda_pendiente
               (format_response (py "incid") (JDict []))))
     = inr (py "book", error_dict (py "Servicio incorrecto")).
Proof.
  apply (frame_for_another_service_is_refused (py "book") _ _ _ _
           (py "incid") (JDict [])).
  - left. reflexivity.
  - vm_compute. reflexivity.
  - discriminate.
Defined.



Lemma responder_elegido tag str_excepcion ramas d message data h :
  parse_message message = inr (tag, data) ->
  elegir (ramas data) = Elegido h ->
  responder tag str_excepcion ramas d message
  = (fst (h d data), format_response tag (snd (h d data))).
Proof.
  intros Hp He. unfold responder. rewrite Hp, pystr_eqb_refl, He.
  cbn [negb]. now destruct (h d data).
Qed.

Lemma responder_no_reconocida tag str_excepcion ramas d message data :
  parse_message message = inr (tag, data) ->
  elegir (ramas data) = NoReconocida ->
  responder tag str_excepcion ramas d message
  = (d, format_response tag (error_dict (py "Acción no reconocida"))).
Proof.
  intros Hp He. unfold responder. rewrite Hp, pystr_eqb_refl, He.
  reflexivity.
Qed.

(** X26: in the booking service a payload that holds [user], [space],
    [inicio] and [fin] is a creation, whatever else it holds ([cancel],
    [approve], [action], ...). *)
Theorem creation_keys_take_priority
  str_excepcion h_create h_approve h_list h_cancel d message data :
  parse_message message = inr (py "book", data) ->
  tiene data "user" = Some true -> tiene data "space" = Some true ->
  tiene data "inicio" = Some true -> tiene data "fin" = Some true ->
  process_message_book str_excepcion h_create h_approve h_list h_cancel
    d message
  = (fst (h_create d data),
     format_response (py "book") (snd (h_create d data))).
Proof.
  intros Hp H1 H2 H3 H4. unfold process_message_book.
  apply responder_elegido; [exact Hp|].
  unfold ramas_book. rewrite H1, H2, H3, H4. reflexivity.
Qed.

Lemma creation_keys_take_priority_witness :
  process_message_book sin_texto (eco "create") (eco "approve") (eco "list")
    (eco "cancel") tienda_pendiente mensaje_ambiguo
  = (fst (eco "create" tienda_pendiente carga_ambigua),
     format_response (py "book")
       (snd (eco "create" tienda_pendiente carga_ambigua))).
Proof.
  apply creation_keys_take_priority; vm_compute; reflexivity.
Defined.

(** X27: in the booking service a dictionary without [inicio], [estado],
    [action], [approve], [getmyreservas] and [cancel] is answered with
    "Acción no reconocida": naming a reservation and a user is not enough to
    cancel or to list. *)
Theorem request_without_marker_is_not_recognised
  str_excepcion h_create h_approve h_list h_cancel d message pairs :
  parse_message message = inr (py "book", JDict pairs) ->
  tiene (JDict pairs) "inicio" = Some false ->
  tiene (JDict pairs) "estado" = Some false ->
  tiene (JDict pairs) "action" = Some false ->
  tiene (JDict pairs) "approve" = Some false ->
  tiene (JDict pairs) "getmyreservas" = Some false ->
  tiene (JDict pairs) "cancel" = Some false ->
  process_message_book str_excepcion h_create h_approve h_list h_cancel
    d message
  = (d, format_response (py "book")
          (error_dict (py "Acción no reconocida"))).
Proof.
  intros Hp H1 H2 H3 H4 H5 H6. unfold process_message_book.
  apply responder_no_reconocida with (data := JDict pairs); [exact Hp|].
  unfold ramas_book. rewrite H1, H2, H3, H4, H5, H6.
  unfold tiene, pertenece.
  repeat match goal with
         | |- context [existsb ?f pairs] => destruct (existsb f pairs)
         end; reflexivity.
Qed.

Lemma request_without_marker_is_not_recognised_witness :
  process_message_book sin_texto (eco "create") (eco "approve") (eco "list")
    (eco "cancel") tienda_pendiente mensaje_demo_listado
  = (tienda_pendiente,
     format_response (py "book") (error_dict (py "Acción no reconocida"))).
Proof.
  apply (request_without_marker_is_not_recognised sin_texto (eco "create")
           (eco "approve") (eco "list") (eco "cancel") tienda_pendiente
           mensaje_demo_listado [(py "user", JStr (py "2"))]);
    vm_compute; reflexivity.
Defined.

(** X28: in the availability service a payload without the key [hora] never
    reaches [handle_check_availability] (the answer is the same whatever
    that handler is), and without [calendar] and [space] either it is
    answered with "Acción no reconocida"; the default hour of the handler
    is reached only with a [hora] that is present and empty. *)
Theorem availability_without_hora_is_not_routed
  str_excepcion h_check h_check' h_calendar d message data :
  parse_message message = inr (py "avail", data) ->
  tiene data "hora" = Some false ->
  process_message_avail str_excepcion h_check h_calendar d message
  = process_message_avail str_excepcion h_check' h_calendar d message
  /\ (tiene data "calendar" = Some false ->
      tiene data "space" = Some false ->
      process_message_avail str_excepcion h_check h_calendar d message
      = (d, format_response (py "avail")
              (error_dict (py "Acción no reconocida")))).
Proof.
  intros Hp Hh.
  assert (Hf : exists b, tiene data "fecha" = Some b).
  { unfold tiene, pertenece in *. destruct data; try discriminate; eauto. }
  destruct Hf as [b Hf].
  assert (E : forall h, elegir (ramas_avail h h_calendar data)
                        = elegir [(o_ (tiene data "calendar")
                                      (y_ (tiene data "space")
                                         (tiene data "fecha")), h_calendar)]).
  { intros h. unfold ramas_avail. rewrite Hh, Hf. now destruct b. }
  split.
  - unfold process_message_avail, responder. rewrite Hp, !E. reflexivity.
  - intros Hc Hs. unfold process_message_avail.
    apply responder_no_reconocida with (data := data); [exact Hp|].
    rewrite E, Hc, Hs. reflexivity.
Qed.

Lemma availability_without_hora_is_not_routed_witness :
  process_message_avail sin_texto (eco "check") (eco "calendar")
    tienda_pendiente
    (format_response (py "avail")
       (JDict [(py "fecha", JStr (py "2025-01-01"))]))
  = process_message_avail sin_texto (eco "otro") (eco "calendar")
      tienda_pendiente
      (format_response (py "avail")
         (JDict [(py "fecha", JStr (py "2025-01-01"))]))
  /\ (tiene (JDict [(py "fecha", JStr (py "2025-01-01"))]) "calendar"
      = Some false ->
      tiene (JDict [(py "fecha", JStr (py "2025-01-01"))]) "space"
      = Some false ->
      process_message_avail sin_texto (eco "check") (eco "calendar")
        tienda_pendiente
        (format_response (py "avail")
           (JDict [(py "fecha", JStr (py "2025-01-01"))]))
      = (tienda_pendiente,
         format_response (py "avail")
           (error_dict (py "Acción no reconocida")))).
Proof.
  apply (availability_without_hora_is_not_routed sin_texto (eco "check")
           (eco "otro") (eco "calendar") tienda_pendiente _
           (JDict [(py "fecha", JStr (py "2025-01-01"))]));
    vm_compute; reflexivity.
Defined.

(** X29: the incident service answers a frame that carries its tag and no
    payload with the list of incidents: the payload decodes to [{}], which
    is the last test of the chain. *)
Theorem bare_frame_lists_incidents
  str_excepcion h_report h_block h_resolve h_get d message :
  len message = 10%nat ->
  strip (from 5 message) = py "incid" ->
  process_message_incid str_excepcion h_report h_block h_resolve h_get
    d message
  = (fst (h_get d (JDict [])),
     format_response (py "incid") (snd (h_get d (JDict [])))).
Proof.
  intros Hl Hs. unfold process_message_incid.
  apply responder_elegido; [|reflexivity].
  unfold parse_message. rewrite Hl. cbn [Nat.ltb Nat.leb].
  assert (Hf : from 10 message = []).
  { unfold from. apply skipn_all2. unfold len in Hl. lia. }
  rewrite Hf. rewrite <- Hs. f_equal. f_equal. f_equal.
  unfold slice, from. change (10 - 5)%nat with 5%nat.
  apply firstn_all2. rewrite length_skipn. unfold len in Hl. lia.
Qed.

Lemma bare_frame_lists_incidents_witness :
  process_message_incid sin_texto (eco "report") (eco "block")
    (eco "resolve") (eco "getall") tienda_pendiente (py "00005incid")
  = (fst (eco "getall" tienda_pendiente (JDict [])),
     format_response (py "incid")
       (snd (eco "getall" tienda_pendiente (JDict [])))).
Proof.
  apply bare_frame_lists_incidents; reflexivity.
Defined.
